(** * Staffing coverage of a service post

    A shallow embedding of the coverage rule of the facilities dashboard
    (constant [MIN_EFETIVO_ESCALA_12X36], [isEscala12x36],
    [getEfetivoPlanejadoAjustado], [getCoberturaParaPosto]) and the
    properties its specification states about it.

    Conventions of the embedding:
    - a JavaScript string is its sequence of UTF-16 code units;
    - an optional, nullable field ([T | null | undefined]) is a [nullable T];
    - the numbers of the specification are integers, so a [number] is a [Z]:
      the code only compares them and takes [Math.max] and [Math.min], which
      are exact on integer-valued doubles;
    - a run either completes normally with a value or abruptly with an error,
      so that "never fails" is a statement and not a convention. *)

From Stdlib Require Import ZArith NArith List String Ascii Bool Lia.
Import ListNotations.
Local Open Scope Z_scope.

(** ** Values *)

Inductive nullable (A : Type) : Type :=
| Undefined : nullable A
| Null : nullable A
| Value : A -> nullable A.
Arguments Undefined {A}.
Arguments Null {A}.
Arguments Value {A} _.

Definition code_unit : Type := N.
Definition jsstring : Type := list code_unit.

(** A string literal of the source, all of whose characters are ASCII. *)
Definition js (s : string) : jsstring :=
  List.map N_of_ascii (list_ascii_of_string s).

(** ** Completions *)

(** [TypeError] is what a method call on [null] or [undefined] throws.
    [IllTyped] is not a JavaScript exception: it marks a run in which a value
    contradicts the static type the source relies on, which the model does
    not follow any further. *)
Inductive js_error : Type := TypeError | IllTyped.

Inductive completion (A : Type) : Type :=
| Normal : A -> completion A
| Throw : js_error -> completion A.
Arguments Normal {A} _.
Arguments Throw {A} _.

Class Monad (M : Type -> Type) : Type := {
  ret : forall {A}, A -> M A;
  bind : forall {A B}, M A -> (A -> M B) -> M B
}.

Notation "x <- c ;; k" := (bind c (fun x => k))
  (at level 61, c at next level, right associativity).

#[global] Instance completion_Monad : Monad completion := {|
  ret := fun A a => Normal a;
  bind := fun A B c k =>
    match c with
    | Normal a => k a
    | Throw e => Throw e
    end
|}.

(** ** Strings: [===], [trim], [toLowerCase] *)

Fixpoint strictEq (a b : jsstring) : bool :=
  match a, b with
  | [], [] => true
  | x :: a', y :: b' => N.eqb x y && strictEq a' b'
  | _, _ => false
  end.

(** WhiteSpace and LineTerminator code points of ECMAScript, all of them in
    the Basic Multilingual Plane: TAB, LF, VT, FF, CR, SP, NBSP, U+1680,
    U+2000..U+200A, U+2028, U+2029, U+202F, U+205F, U+3000 and U+FEFF. *)
Definition isWhiteSpace (c : code_unit) : bool :=
  ((9 <=? c) && (c <=? 13) || (c =? 32) || (c =? 160) || (c =? 5760)
   || (8192 <=? c) && (c <=? 8202) || (c =? 8232) || (c =? 8233)
   || (c =? 8239) || (c =? 8287) || (c =? 12288) || (c =? 65279))%N.

Fixpoint trimStart (s : jsstring) : jsstring :=
  match s with
  | c :: s' => if isWhiteSpace c then trimStart s' else s
  | [] => []
  end.

Definition trimEnd (s : jsstring) : jsstring := rev (trimStart (rev s)).

Definition trim (s : jsstring) : jsstring := trimEnd (trimStart s).

Definition isBasicLatin (c : code_unit) : bool := (c <? 128)%N.

Definition asciiLower (c : code_unit) : code_unit :=
  if ((65 <=? c) && (c <=? 90))%N then (c + 32)%N else c.

(** The identity outside Basic Latin; a stand-in for the Unicode table where
    a concrete engine is needed to run an example. *)
Definition noUnicodeLower (s : jsstring) : jsstring := s.

Section Coverage.

(** The lower-casing table of the JavaScript engine for a string that has
    a code unit outside Basic Latin.  It is the engine's Unicode data and
    no part of the repository; nothing is assumed about it. *)
Variable unicodeLower : jsstring -> jsstring.

Definition toLowerCase (s : jsstring) : jsstring :=
  if forallb isBasicLatin s then List.map asciiLower s else unicodeLower s.

(** ** The source: coverage rule *)

Definition MIN_EFETIVO_ESCALA_12X36 : Z := 4.

Record PostoEfetivoInfo : Type := {
  escala : nullable jsstring;
  efetivo_planejado : nullable Z
}.

(** Truthiness of a string-or-nullish and of an integer. *)
Definition truthy_string (v : nullable jsstring) : bool :=
  match v with
  | Value (_ :: _) => true
  | Value [] | Null | Undefined => false
  end.

Definition truthy_number (n : Z) : bool := negb (n =? 0).

(** [escala.trim()]: a method call, which throws on a nullish receiver. *)
Definition call_trim (receiver : nullable jsstring) : completion jsstring :=
  match receiver with
  | Value s => Normal (trim s)
  | Null | Undefined => Throw TypeError
  end.

Definition isEscala12x36 (escala : nullable jsstring) : completion bool :=
  if negb (truthy_string escala) then Normal false
  else
    trimmed <- call_trim escala ;;
    Normal (strictEq (toLowerCase trimmed) (js "12x36")).

(** The local constant [baseEfetivo]:
    [p && p > 0 ? p : 1] with [p = posto.efetivo_planejado].  A nullish [p]
    is falsy and [&&] stops there. *)
Definition baseEfetivo (posto : PostoEfetivoInfo) : Z :=
  match efetivo_planejado posto with
  | Value p => if truthy_number p && (p >? 0) then p else 1
  | Null | Undefined => 1
  end.

Definition getEfetivoPlanejadoAjustado (posto : PostoEfetivoInfo)
  : completion Z :=
  let base := baseEfetivo posto in
  is12x36 <- isEscala12x36 (escala posto) ;;
  if is12x36 : bool
  then Normal (Z.max base MIN_EFETIVO_ESCALA_12X36)
  else Normal base.

Record Cobertura : Type := {
  efetivoNecessario : Z;
  efetivoConsiderado : Z;
  estaCoberto : bool
}.

Definition getCoberturaParaPosto (colaboradoresAtivos : Z)
    (posto : PostoEfetivoInfo) : completion Cobertura :=
  necessario <- getEfetivoPlanejadoAjustado posto ;;
  let considerado := Z.min colaboradoresAtivos necessario in
  Normal {| efetivoNecessario := necessario;
            efetivoConsiderado := considerado;
            estaCoberto := colaboradoresAtivos >=? necessario |}.

End Coverage.

(** ** The same functions over a heap

    In JavaScript the argument [posto] is a reference to a mutable object.
    The functions are embedded a second time with the object in a heap, each
    property access being a read of the heap of that moment, to state that
    they read their argument and write nothing.  [isEscala12x36] takes a
    primitive value and is used as it is. *)
Module Heap.

Definition ref : Type := nat.

(** Every reference of static type [PostoEfetivoInfo] denotes an object. *)
Definition heap : Type := ref -> PostoEfetivoInfo.

Definition JS (A : Type) : Type := heap -> completion A * heap.

#[global] Instance JS_Monad : Monad JS := {|
  ret := fun A a h => (Normal a, h);
  bind := fun A B c k h =>
    match c h with
    | (Normal a, h') => k a h'
    | (Throw e, h') => (Throw e, h')
    end
|}.

Definition lift {A : Type} (c : completion A) : JS A := fun h => (c, h).

Definition get_escala (posto : ref) : JS (nullable jsstring) :=
  fun h => (Normal (escala (h posto)), h).

Definition get_efetivo_planejado (posto : ref) : JS (nullable Z) :=
  fun h => (Normal (efetivo_planejado (h posto)), h).

(** An assignment [posto.efetivo_planejado = v].  The coverage rule has
    none; it is here to show what the heap model tells apart. *)
Definition set_efetivo_planejado (posto : ref) (v : nullable Z) : JS unit :=
  fun h =>
    (Normal tt,
     fun r => if Nat.eqb r posto
              then {| escala := escala (h r); efetivo_planejado := v |}
              else h r).

Definition truthy (v : nullable Z) : bool :=
  match v with
  | Value n => truthy_number n
  | Null | Undefined => false
  end.

(** [v > 0]: [null] converts to [0] and [undefined] to [NaN]. *)
Definition gt_zero (v : nullable Z) : bool :=
  match v with
  | Value n => n >? 0
  | Null | Undefined => false
  end.

(** The source uses the third read as a [number], which the type checker
    grants from the two tests before it. *)
Definition as_number (v : nullable Z) : JS Z :=
  match v with
  | Value n => ret n
  | Null | Undefined => lift (Throw IllTyped)
  end.

Section Coverage.

Variable unicodeLower : jsstring -> jsstring.

Definition getEfetivoPlanejadoAjustado (posto : ref) : JS Z :=
  p <- get_efetivo_planejado posto ;;
  baseEfetivo <-
    (if truthy p then
       q <- get_efetivo_planejado posto ;;
       if gt_zero q then
         r <- get_efetivo_planejado posto ;; as_number r
       else ret 1
     else ret 1) ;;
  e <- get_escala posto ;;
  is12x36 <- lift (isEscala12x36 unicodeLower e) ;;
  if is12x36 : bool
  then ret (Z.max baseEfetivo MIN_EFETIVO_ESCALA_12X36)
  else ret baseEfetivo.

Definition getCoberturaParaPosto (colaboradoresAtivos : Z) (posto : ref)
  : JS Cobertura :=
  necessario <- getEfetivoPlanejadoAjustado posto ;;
  let considerado := Z.min colaboradoresAtivos necessario in
  ret {| efetivoNecessario := necessario;
         efetivoConsiderado := considerado;
         estaCoberto := colaboradoresAtivos >=? necessario |}.

End Coverage.

End Heap.

(** ** The specification's wording *)

Section Spec.

Variable unicodeLower : jsstring -> jsstring.

(** "Trims surrounding whitespace, performs a case-insensitive comparison
    against the literal rotation label"; false for an absent value. *)
Definition spec_isTwelveBySixThirtySix (shiftType : nullable jsstring)
  : bool :=
  match shiftType with
  | Value s => strictEq (toLowerCase unicodeLower (trim s)) (js "12x36")
  | Null | Undefined => false
  end.

(** "The planned headcount if it is present and positive and 1 otherwise". *)
Definition spec_baseline (plannedHeadcount : nullable Z) : Z :=
  match plannedHeadcount with
  | Value n => if 0 <? n then n else 1
  | Null | Undefined => 1
  end.

(** "Absent, zero, or negative". *)
Definition spec_unconfigured (plannedHeadcount : nullable Z) : Prop :=
  match plannedHeadcount with
  | Value n => n <= 0
  | Null | Undefined => True
  end.

End Spec.

(** * The pages

    The form handlers of the pages are embedded as traces: a handler is a
    function of the component state it reads and of the answer of the
    backend, and returns the effects it performs, in order.  The answer of
    the backend to a request is whether it reports an error. *)

(** ** Operators of the language *)

(** Truthiness of a string. *)
Definition nonEmpty (s : jsstring) : bool :=
  match s with
  | [] => false
  | _ :: _ => true
  end.

(** [a || b] on a string: [a] unless it is empty. *)
Definition or_else (a b : jsstring) : jsstring :=
  match a with
  | [] => b
  | _ :: _ => a
  end.

(** [a || null] on a string. *)
Definition or_null (a : jsstring) : nullable jsstring :=
  match a with
  | [] => Null
  | _ :: _ => Value a
  end.

(** [v ?? d]. *)
Definition coalesce {A : Type} (v : nullable A) (d : A) : A :=
  match v with
  | Value a => a
  | Null | Undefined => d
  end.

(** [options.includes(x)] on an array of strings. *)
Definition includes (options : list jsstring) (x : jsstring) : bool :=
  existsb (strictEq x) options.

(** A [Map] with string keys, as the list of its [set] calls, latest first. *)
Definition Map_get {V : Type} (m : list (jsstring * V)) (k : jsstring)
  : option V :=
  match find (fun kv => strictEq (fst kv) k) m with
  | Some kv => Some (snd kv)
  | None => None
  end.

Definition Map_set {V : Type} (m : list (jsstring * V)) (k : jsstring)
    (v : V) : list (jsstring * V) :=
  (k, v) :: m.

(** Whether a string starts, or ends, with a code unit that [trim] strips. *)
Definition startsWithWhiteSpace (s : jsstring) : bool :=
  match s with
  | c :: _ => isWhiteSpace c
  | [] => false
  end.

Definition endsWithWhiteSpace (s : jsstring) : bool :=
  startsWithWhiteSpace (rev s).

(** ** Checklist.tsx: the checklist templates page *)
Module ChecklistPage.

Definition tipoOptions : list jsstring :=
  [js "diario"; js "semanal"; js "mensal"; js "pontual"].

Definition statusOptions : list jsstring := [js "ativo"; js "inativo"].

Record ChecklistForm : Type := {
  nome : jsstring;
  descricao : jsstring;
  tipo : jsstring;
  unidade_id : jsstring;
  status : jsstring
}.

Definition initialForm : ChecklistForm :=
  {| nome := []; descricao := []; tipo := js "diario"; unidade_id := [];
     status := js "ativo" |}.

(** The columns of [checklists] that the page selects and uses.  The
    generated database types are not part of the sources at hand: the
    nullable columns are those the page guards with [??] or [&&], and the
    identifier is the number it is on the executions page. *)
Record ChecklistRow : Type := {
  row_id : Z;
  row_nome : jsstring;
  row_descricao : nullable jsstring;
  row_tipo : nullable jsstring;
  row_unidade_id : nullable jsstring;
  row_status : nullable jsstring
}.

Record ChecklistInsert : Type := {
  ins_nome : jsstring;
  ins_descricao : nullable jsstring;
  ins_tipo : jsstring;
  ins_unidade_id : nullable jsstring;
  ins_status : jsstring
}.

Record UnidadeRow : Type := {
  unidade_row_id : jsstring;
  unidade_row_nome : jsstring
}.

Inductive effect : Type :=
| PreventDefault
| ToastWarning (message : string)
| ToastSuccess (message : string)
| ToastError (message : string)
| SetSaving (saving : bool)
| SetFormData (formData : ChecklistForm)
| SetEditingId (editingId : nullable Z)
| Update (payload : ChecklistInsert) (id : Z)
| Insert (payload : ChecklistInsert)
| FetchChecklists.

(** [unidades.forEach((unidade) => map.set(unidade.id, unidade.nome))]. *)
Definition unidadeMap (unidades : list UnidadeRow)
  : list (jsstring * jsstring) :=
  fold_left
    (fun map unidade =>
       Map_set map (unidade_row_id unidade) (unidade_row_nome unidade))
    unidades [].

(** The cell of the table:
    [(checklist.unidade_id && unidadeMap.get(checklist.unidade_id)) ?? "-"]. *)
Definition unidadeCell (unidades : list UnidadeRow) (checklist : ChecklistRow)
  : jsstring :=
  match row_unidade_id checklist with
  | Value [] => []
  | Value u =>
      match Map_get (unidadeMap unidades) u with
      | Some name => name
      | None => js "-"
      end
  | Null | Undefined => js "-"
  end.

Definition resetForm : list effect :=
  [SetFormData initialForm; SetEditingId Null].

Definition payload (formData : ChecklistForm) : ChecklistInsert :=
  {| ins_nome := trim (nome formData);
     ins_descricao := or_null (trim (descricao formData));
     ins_tipo := tipo formData;
     ins_unidade_id := or_null (unidade_id formData);
     ins_status := or_else (status formData) (js "ativo") |}.

(** [if (editingId)]: a number that is not zero. *)
Definition editing (editingId : nullable Z) : option Z :=
  match editingId with
  | Value i => if truthy_number i then Some i else None
  | Null | Undefined => None
  end.

Definition handleSubmit (formData : ChecklistForm) (editingId : nullable Z)
    (error : bool) : list effect :=
  PreventDefault ::
  match trim (nome formData) with
  | [] => [ToastWarning "Informe o nome do checklist"]
  | _ :: _ =>
      SetSaving true ::
      match editing editingId with
      | Some id => Update (payload formData) id
      | None => Insert (payload formData)
      end ::
      (if error then [ToastError "Erro ao salvar checklist"]
       else
         ToastSuccess
           ("Checklist "
            ++ match editing editingId with
               | Some _ => "atualizado"
               | None => "criado"
               end
            ++ " com sucesso")
         :: resetForm ++ [FetchChecklists])
      ++ [SetSaving false]
  end.

Definition handleEdit (checklist : ChecklistRow) : list effect :=
  [SetEditingId (Value (row_id checklist));
   SetFormData
     {| nome := row_nome checklist;
        descricao := coalesce (row_descricao checklist) [];
        tipo :=
          match row_tipo checklist with
          | Value t =>
              if nonEmpty t && includes tipoOptions t then t
              else js "diario"
          | Null | Undefined => js "diario"
          end;
        unidade_id := coalesce (row_unidade_id checklist) [];
        status :=
          match row_status checklist with
          | Value s =>
              if nonEmpty s && includes statusOptions s then s
              else js "ativo"
          | Null | Undefined => js "ativo"
          end |}].

(** The component state that the setters of a trace leave behind. *)
Record state : Type := {
  formData : ChecklistForm;
  editingId : nullable Z;
  saving : bool
}.

Definition step (s : state) (e : effect) : state :=
  match e with
  | SetSaving b =>
      {| formData := formData s; editingId := editingId s; saving := b |}
  | SetFormData f =>
      {| formData := f; editingId := editingId s; saving := saving s |}
  | SetEditingId i =>
      {| formData := formData s; editingId := i; saving := saving s |}
  | _ => s
  end.

Definition run (s : state) (trace : list effect) : state :=
  fold_left step trace s.

Definition requests (trace : list effect) : list effect :=
  filter (fun e => match e with
                   | Update _ _ | Insert _ => true
                   | _ => false
                   end) trace.


End ChecklistPage.

(** ** ChecklistRespostas.tsx: the answers page *)
Module RespostasPage.

Record ChecklistRespostaForm : Type := {
  execucao_id : jsstring;
  item_id : jsstring;
  resposta : jsstring;
  conforme : jsstring;
  foto_url : jsstring;
  observacao : jsstring;
  created_at : jsstring
}.

Definition initialForm : ChecklistRespostaForm :=
  {| execucao_id := []; item_id := []; resposta := [];
     conforme := js "null"; foto_url := []; observacao := [];
     created_at := [] |}.

(** The columns of [checklist_respostas] that the page selects.  The
    generated database types are not part of the sources at hand: every
    column the page guards with [??], [?.] or a test against [null] is
    nullable. *)
Record ChecklistRespostaRow : Type := {
  row_id : jsstring;
  row_execucao_id : nullable jsstring;
  row_item_id : nullable jsstring;
  row_resposta : nullable jsstring;
  row_conforme : nullable bool;
  row_foto_url : nullable jsstring;
  row_observacao : nullable jsstring;
  row_created_at : nullable jsstring
}.

(** What [handleSubmit] reads of a loaded execution. *)
Record ChecklistExecucao : Type := {
  execucao_row_id : jsstring;
  execucao_row_status : nullable jsstring
}.

Record ChecklistRespostaInsert : Type := {
  ins_execucao_id : jsstring;
  ins_item_id : nullable jsstring;
  ins_resposta : nullable jsstring;
  ins_conforme : nullable bool;
  ins_foto_url : nullable jsstring;
  ins_observacao : nullable jsstring;
  ins_created_at : nullable jsstring
}.

Inductive effect : Type :=
| PreventDefault
| ToastWarning (message : string)
| ToastSuccess (message : string)
| ToastError (message : string)
| ConsoleError
| SetSaving (saving : bool)
| SetFormData (formData : ChecklistRespostaForm)
| SetEditingId (editingId : nullable jsstring)
| Update (payload : ChecklistRespostaInsert) (id : jsstring)
| Insert (payload : ChecklistRespostaInsert)
| FetchRespostas
| UncaughtRangeError.

Record state : Type := {
  formData : ChecklistRespostaForm;
  editingId : nullable jsstring;
  saving : bool
}.

Definition step (s : state) (e : effect) : state :=
  match e with
  | SetSaving b =>
      {| formData := formData s; editingId := editingId s; saving := b |}
  | SetFormData f =>
      {| formData := f; editingId := editingId s; saving := saving s |}
  | SetEditingId i =>
      {| formData := formData s; editingId := i; saving := saving s |}
  | _ => s
  end.

Definition run (s : state) (trace : list effect) : state :=
  fold_left step trace s.

Definition requests (trace : list effect) : list effect :=
  filter (fun e => match e with
                   | Update _ _ | Insert _ => true
                   | _ => false
                   end) trace.

Definition resetForm : list effect :=
  [SetFormData initialForm; SetEditingId Null].

(** [if (editingId)]: a string that is not empty. *)
Definition editing (editingId : nullable jsstring) : option jsstring :=
  match editingId with
  | Value i => if nonEmpty i then Some i else None
  | Null | Undefined => None
  end.

(** [execucaoSelecionada?.status === "concluido"]. *)
Definition concluded (execucaoSelecionada : option ChecklistExecucao) : bool :=
  match execucaoSelecionada with
  | Some execucao =>
      match execucao_row_status execucao with
      | Value s => strictEq s (js "concluido")
      | Null | Undefined => false
      end
  | None => false
  end.

Section Dates.

(** [new Date(s).toISOString()] of the engine, [None] where it throws a
    [RangeError] because [s] is no date.  Nothing is assumed about it. *)
Variable toISOString : jsstring -> option jsstring.

(** The object literal [payload]; its last field is the one that can throw. *)
Definition payload (formData : ChecklistRespostaForm)
  : option ChecklistRespostaInsert :=
  let conforme_value :=
    if strictEq (conforme formData) (js "null") then Null
    else Value (strictEq (conforme formData) (js "true")) in
  let finish (created : nullable jsstring) :=
    {| ins_execucao_id := execucao_id formData;
       ins_item_id := or_null (item_id formData);
       ins_resposta := or_null (trim (resposta formData));
       ins_conforme := conforme_value;
       ins_foto_url := or_null (trim (foto_url formData));
       ins_observacao := or_null (trim (observacao formData));
       ins_created_at := created |} in
  if nonEmpty (created_at formData) then
    match toISOString (created_at formData) with
    | Some iso => Some (finish (Value iso))
    | None => None
    end
  else Some (finish Undefined).

Definition handleSubmit (formData : ChecklistRespostaForm)
    (execucoes : list ChecklistExecucao) (editingId : nullable jsstring)
    (error : bool) : list effect :=
  PreventDefault ::
  if negb (nonEmpty (execucao_id formData)) then
    [ToastWarning "Selecione uma execução"]
  else
    let execucaoSelecionada :=
      find (fun execucao =>
              strictEq (execucao_row_id execucao) (execucao_id formData))
        execucoes in
    if concluded execucaoSelecionada then
      [ToastWarning
         "Esta execução já está concluída. Edite a execução e altere o status para registrar novas respostas."]
    else
      SetSaving true ::
      match payload formData with
      | None => [UncaughtRangeError]
      | Some p =>
          match editing editingId with
          | Some id => Update p id
          | None => Insert p
          end ::
          (if error then [ConsoleError; ToastError "Erro ao salvar resposta"]
           else
             ToastSuccess
               ("Resposta "
                ++ match editing editingId with
                   | Some _ => "atualizada"
                   | None => "registrada"
                   end
                ++ " com sucesso!")
             :: resetForm ++ [FetchRespostas])
          ++ [SetSaving false]
      end.

Definition handleEdit (resposta : ChecklistRespostaRow) : list effect :=
  SetEditingId (Value (row_id resposta)) ::
  let conforme_text :=
    match row_conforme resposta with
    | Null => js "null"
    | Value true => js "true"
    | Value false | Undefined => js "false"
    end in
  let finish (created : jsstring) :=
    {| execucao_id := coalesce (row_execucao_id resposta) [];
       item_id := coalesce (row_item_id resposta) [];
       resposta := coalesce (row_resposta resposta) [];
       conforme := conforme_text;
       foto_url := coalesce (row_foto_url resposta) [];
       observacao := coalesce (row_observacao resposta) [];
       created_at := created |} in
  match row_created_at resposta with
  | Value stamp =>
      if nonEmpty stamp then
        match toISOString stamp with
        | Some iso => [SetFormData (finish (firstn 16 iso))]
        | None => [UncaughtRangeError]
        end
      else [SetFormData (finish [])]
  | Null | Undefined => [SetFormData (finish [])]
  end.

End Dates.

End RespostasPage.

(** ** Colaboradores.tsx, second component: the checklist items page *)
Module ItensPage.

Record ChecklistItemForm : Type := {
  checklist_id : jsstring;
  descricao : jsstring;
  tipo_resposta : jsstring;
  obrigatorio : jsstring
}.

Definition initialForm : ChecklistItemForm :=
  {| checklist_id := []; descricao := []; tipo_resposta := js "sim_nao";
     obrigatorio := js "true" |}.

Record ChecklistItemInsert : Type := {
  ins_checklist_id : jsstring;
  ins_ordem : Z;
  ins_descricao : jsstring;
  ins_tipo_resposta : jsstring;
  ins_obrigatorio : bool
}.

(** The answer of the backend to the count of the items of a given order:
    [{ count, error }], the error being given by its message, which is
    empty when it has none. *)
Record CountAnswer : Type := {
  count : nullable Z;
  error : option string
}.

(** How an [async] function ends: a value, or a thrown error, given by its
    message. *)
Inductive outcome (A : Type) : Type :=
| Returned : A -> outcome A
| Threw : string -> outcome A.
Arguments Returned {A} _.
Arguments Threw {A} _.

(** [!count || count === 0]. *)
Definition free (c : nullable Z) : bool :=
  match c with
  | Value n => negb (truthy_number n) || (n =? 0)
  | Null | Undefined => true
  end.

(** [error.message || fallback]. *)
Definition message_or (message fallback : string) : string :=
  match message with
  | EmptyString => fallback
  | _ => message
  end.

(** The message of the error that [gerarOrdemUnica] throws itself. *)
Definition noUniqueOrder : string :=
  "Não foi possível gerar uma ordem única. Tente novamente.".

Section Backend.

(** The value of [Math.floor(Math.random() * (max - min + 1))] at each
    attempt, and the answer of the backend to the query of each attempt.
    Both are indexed by [tentativa]. *)
Variable randomFloor : Z -> Z.
Variable answer : Z -> Z -> CountAnswer.

Definition min : Z := 1.
Definition max : Z := 999999.

(** The loop of [gerarOrdemUnica] from a given [tentativa] on, with the
    orders it has queried so far, latest first.  [fuel] bounds the number
    of turns; [None] is a loop that has not ended within it. *)
Fixpoint gerarOrdemUnica_loop (fuel : nat) (tentativa : Z)
    (queried : list Z) : option (outcome Z * list Z) :=
  match fuel with
  | O => None
  | S fuel' =>
      if tentativa <? 50 then
        let tentativa := tentativa + 1 in
        let ordemAleatoria := randomFloor tentativa + min in
        let queried := ordemAleatoria :: queried in
        let response := answer tentativa ordemAleatoria in
        match error response with
        | Some message => Some (Threw message, queried)
        | None =>
            if free (count response)
            then Some (Returned ordemAleatoria, queried)
            else gerarOrdemUnica_loop fuel' tentativa queried
        end
      else
        Some (Threw noUniqueOrder, queried)
  end.

Definition gerarOrdemUnica (fuel : nat) : option (outcome Z * list Z) :=
  gerarOrdemUnica_loop fuel 0 [].

(** The order that attempt [k] draws, and what the backend says of it:
    that no item has it, or that some item has it. *)
Definition ordemDaTentativa (k : Z) : Z := randomFloor k + min.

Definition answeredFree (k : Z) : bool :=
  match error (answer k (ordemDaTentativa k)) with
  | None => free (count (answer k (ordemDaTentativa k)))
  | Some _ => false
  end.

Definition answeredTaken (k : Z) : bool :=
  match error (answer k (ordemDaTentativa k)) with
  | None => negb (free (count (answer k (ordemDaTentativa k))))
  | Some _ => false
  end.

(** What a run of the loop from [t] on amounts to, [k] being the attempt
    it ends at. *)
Definition loop_result (t : Z) (queried : list Z)
    (r : outcome Z * list Z) : Prop :=
  exists (k : Z) (new : list Z),
    snd r = new ++ queried /\
    Z.of_nat (List.length new) = k - t /\
    t <= k <= 50 /\
    (forall j, t < j < k -> answeredTaken j = true) /\
    match fst r with
    | Returned v =>
        t < k /\ v = ordemDaTentativa k /\ hd_error new = Some v /\
        answeredFree k = true
    | Threw m =>
        (t < k /\
         error (answer k (ordemDaTentativa k)) = Some m) \/
        (k = 50 /\ (t < 50 -> answeredTaken 50 = true) /\
         m = noUniqueOrder)
    end.

Inductive effect : Type :=
| PreventDefault
| ToastWarning (message : string)
| ToastSuccess (message : string)
| ToastError (message : string)
| SetSaving (saving : bool)
| SetFormData (formData : ChecklistItemForm)
| SetEditingId (editingId : nullable jsstring)
| CountOrdem (ordem : Z)
| Update (payload : ChecklistItemInsert) (id : jsstring)
| Insert (payload : ChecklistItemInsert)
| FetchItens.

Definition resetForm : list effect :=
  [SetFormData initialForm; SetEditingId Null].

Definition editing (editingId : nullable jsstring) : option jsstring :=
  match editingId with
  | Value i => if nonEmpty i then Some i else None
  | Null | Undefined => None
  end.

Definition payload (formData : ChecklistItemForm) (ordemGerada : Z)
  : ChecklistItemInsert :=
  {| ins_checklist_id := checklist_id formData;
     ins_ordem := ordemGerada;
     ins_descricao := trim (descricao formData);
     ins_tipo_resposta := tipo_resposta formData;
     ins_obrigatorio := strictEq (obrigatorio formData) (js "true") |}.

(** [saveError] is the answer of the backend to the request: the message of
    its error, if it reports one.  [None] is a run that has not ended
    within [fuel] turns of the loop. *)
Definition handleSubmit (fuel : nat) (formData : ChecklistItemForm)
    (editingId : nullable jsstring) (saveError : option string)
  : option (list effect) :=
  if negb (nonEmpty (checklist_id formData))
     || negb (nonEmpty (trim (descricao formData)))
  then Some [PreventDefault; ToastWarning "Preencha checklist e descrição"]
  else
    match gerarOrdemUnica fuel with
    | None => None
    | Some (result, queried) =>
        Some
          (PreventDefault :: SetSaving true ::
           List.map CountOrdem (rev queried) ++
           match result with
           | Threw message =>
               [ToastError (message_or message "Erro ao gerar ordem aleatória");
                SetSaving false]
           | Returned ordemGerada =>
               match editing editingId with
               | Some id => Update (payload formData ordemGerada) id
               | None => Insert (payload formData ordemGerada)
               end ::
               match saveError with
               | Some message =>
                   [ToastError (message_or message "Erro ao salvar item")]
               | None =>
                   ToastSuccess
                     ("Item "
                      ++ match editing editingId with
                         | Some _ => "atualizado"
                         | None => "criado"
                         end
                      ++ " com sucesso!")
                   :: resetForm ++ [FetchItens]
               end ++ [SetSaving false]
           end)
    end.

End Backend.

End ItensPage.

(** ** [String.prototype.includes] *)

Fixpoint String_startsWith (s t : jsstring) : bool :=
  match t, s with
  | [], _ => true
  | c :: t', d :: s' => N.eqb c d && String_startsWith s' t'
  | _ :: _, [] => false
  end.

Fixpoint String_includes (s t : jsstring) : bool :=
  String_startsWith s t
  || match s with
     | [] => false
     | _ :: s' => String_includes s' t
     end.

(** ** The checklist page of the first unnamed source file *)
Module Part000.

Definition periodicidadeOptions : list (jsstring * jsstring) :=
  [(js "diaria", js "Diaria");
   (js "semanal", js "Semanal");
   (js "quinzenal", js "Quinzenal");
   (js "mensal", js "Mensal");
   (js "trimestral", js "Trimestral");
   (js "semestral", js "Semestral");
   (js "anual", js "Anual")].

(** [periodicidadeOptions.find((opt) => opt.value === value)?.label ?? value]. *)
Definition getPeriodicidadeLabel (value : jsstring) : jsstring :=
  match find (fun opt => strictEq (fst opt) value) periodicidadeOptions with
  | Some opt => snd opt
  | None => value
  end.

Record ChecklistForm : Type := {
  nome : jsstring;
  periodicidade : jsstring;
  contrato_id : jsstring;
  unidade_id : jsstring
}.

(** The form of [useState] and of [resetForm]. *)
Definition emptyForm : ChecklistForm :=
  {| nome := []; periodicidade := js "mensal"; contrato_id := js "none";
     unidade_id := js "none" |}.

(** A row of [checklist] with the two relations the query joins.  The
    generated database types are not part of the sources at hand: the
    nullable fields are those the page reads with [??] or [?.]. *)
Record Summary : Type := {
  summary_nome : nullable jsstring
}.

Record ChecklistWithRelations : Type := {
  row_id : jsstring;
  row_nome : jsstring;
  row_periodicidade : jsstring;
  row_contrato_id : nullable jsstring;
  row_unidade_id : nullable jsstring;
  row_contrato : nullable Summary;
  row_unidade : nullable Summary
}.

Record ChecklistInsert : Type := {
  ins_nome : jsstring;
  ins_periodicidade : jsstring;
  ins_contrato_id : nullable jsstring;
  ins_unidade_id : nullable jsstring
}.

Inductive effect : Type :=
| PreventDefault
| ToastSuccess (message : string)
| ToastError (message : string)
| ConsoleError (message : string)
| SetSaving (saving : bool)
| SetFormData (formData : ChecklistForm)
| SetEditingId (editingId : nullable jsstring)
| SetChecklists
| Update (payload : ChecklistInsert) (id : jsstring)
| Insert (payload : ChecklistInsert)
| SelectChecklists.

Record state : Type := {
  formData : ChecklistForm;
  editingId : nullable jsstring;
  saving : bool
}.

Definition step (s : state) (e : effect) : state :=
  match e with
  | SetSaving b =>
      {| formData := formData s; editingId := editingId s; saving := b |}
  | SetFormData f =>
      {| formData := f; editingId := editingId s; saving := saving s |}
  | SetEditingId i =>
      {| formData := formData s; editingId := i; saving := saving s |}
  | _ => s
  end.

Definition run (s : state) (trace : list effect) : state :=
  fold_left step trace s.

Definition requests (trace : list effect) : list effect :=
  filter (fun e => match e with
                   | Update _ _ | Insert _ => true
                   | _ => false
                   end) trace.

Definition resetForm : list effect :=
  [SetFormData emptyForm; SetEditingId Null].

Definition editing (editingId : nullable jsstring) : option jsstring :=
  match editingId with
  | Value i => if nonEmpty i then Some i else None
  | Null | Undefined => None
  end.

(** [x === "none" ? null : x]. *)
Definition none_to_null (x : jsstring) : nullable jsstring :=
  if strictEq x (js "none") then Null else Value x.

Definition payload (formData : ChecklistForm) : ChecklistInsert :=
  {| ins_nome := nome formData;
     ins_periodicidade := periodicidade formData;
     ins_contrato_id := none_to_null (contrato_id formData);
     ins_unidade_id := none_to_null (unidade_id formData) |}.

(** [saveError] is whether the backend reports an error for the request,
    [loadError] whether it reports one for the query of [loadChecklists]
    that follows a success.  Both errors are thrown within the same [try]. *)
Definition handleSubmit (formData : ChecklistForm)
    (editingId : nullable jsstring) (saveError loadError : bool)
  : list effect :=
  PreventDefault ::
  if negb (nonEmpty (nome formData)) then
    [ToastError "Informe o nome do checklist."]
  else
    SetSaving true ::
    match editing editingId with
    | Some id => Update (payload formData) id
    | None => Insert (payload formData)
    end ::
    (if saveError then
       [ConsoleError "Erro ao salvar checklist:";
        ToastError "Nao foi possivel salvar o checklist."]
     else
       ToastSuccess
         match editing editingId with
         | Some _ => "Checklist atualizado."
         | None => "Checklist criado."
         end ::
       SelectChecklists ::
       (if loadError then
          [ConsoleError "Erro ao salvar checklist:";
           ToastError "Nao foi possivel salvar o checklist."]
        else SetChecklists :: resetForm))
    ++ [SetSaving false].

Definition handleEdit (entry : ChecklistWithRelations) : list effect :=
  [SetEditingId (Value (row_id entry));
   SetFormData
     {| nome := row_nome entry;
        periodicidade := row_periodicidade entry;
        contrato_id := coalesce (row_contrato_id entry) (js "none");
        unidade_id := coalesce (row_unidade_id entry) (js "none") |}].

Section Search.

Variable unicodeLower : jsstring -> jsstring.

(** [relation?.nome?.toLowerCase().includes(term)]: [undefined] when the
    relation or its name is nullish. *)
Definition relationIncludes (relation : nullable Summary) (term : jsstring)
  : nullable bool :=
  match relation with
  | Value r =>
      match summary_nome r with
      | Value n => Value (String_includes (toLowerCase unicodeLower n) term)
      | Null | Undefined => Undefined
      end
  | Null | Undefined => Undefined
  end.

(** Truthiness of a boolean or [undefined]. *)
Definition truthy_bool (v : nullable bool) : bool :=
  match v with
  | Value b => b
  | Null | Undefined => false
  end.

(** The predicate of the filter; [filter] keeps an element when the value
    returned for it is truthy. *)
Definition matches (searchTerm unidadeFilter : jsstring)
    (checklist : ChecklistWithRelations) : bool :=
  let matchSearch :=
    String_includes (toLowerCase unicodeLower (row_nome checklist))
      (toLowerCase unicodeLower searchTerm)
    || truthy_bool (relationIncludes (row_contrato checklist)
                      (toLowerCase unicodeLower searchTerm))
    || truthy_bool (relationIncludes (row_unidade checklist)
                      (toLowerCase unicodeLower searchTerm)) in
  let matchUnidade :=
    strictEq unidadeFilter (js "all")
    || match row_unidade_id checklist with
       | Value u => strictEq u unidadeFilter
       | Null | Undefined => false
       end in
  matchSearch && matchUnidade.

Definition filteredChecklists (checklists : list ChecklistWithRelations)
    (searchTerm unidadeFilter : jsstring) : list ChecklistWithRelations :=
  filter (matches searchTerm unidadeFilter) checklists.

End Search.

End Part000.

(** ** The executions page of the second unnamed source file *)
Module Part001.

(** What [fetchExecucaoConclusoes] selects of an answer; the identifier of
    the execution is the text it is on the answers page. *)
Record Resposta : Type := {
  execucao_id : nullable jsstring;
  created_at : nullable jsstring
}.

Section Conclusoes.

(** Whether a name is that of a property that an object literal inherits
    from [Object.prototype]; such a property is a function or an object.
    This is the engine's and nothing is assumed about it. *)
Variable inherited : jsstring -> bool.

(** [!map[k]] for the object [map], given by its own properties. *)
Definition falsyAt (map : list (jsstring * jsstring)) (k : jsstring) : bool :=
  match Map_get map k with
  | Some v => negb (nonEmpty v)
  | None => negb (inherited k)
  end.

(** The body of the [forEach]. *)
Definition record (map : list (jsstring * jsstring)) (resposta : Resposta)
  : list (jsstring * jsstring) :=
  match execucao_id resposta with
  | Value k =>
      if nonEmpty k && falsyAt map k
      then Map_set map k (coalesce (created_at resposta) [])
      else map
  | Null | Undefined => map
  end.

(** The object that [fetchExecucaoConclusoes] passes to
    [setExecucaoConclusoes] when the query reports no error; [data] is
    [null] or the answers, oldest first. *)
Definition execucaoConclusoes (data : nullable (list Resposta))
  : list (jsstring * jsstring) :=
  match data with
  | Value respostas => fold_left record respostas []
  | Null | Undefined => []
  end.

End Conclusoes.

End Part001.

(** ** Sample data

    Concrete forms, rows and backends at which the properties of the pages
    are run. *)
Module Sample.

Definition checklistForm : ChecklistPage.ChecklistForm :=
  {| ChecklistPage.nome := js " Ronda noturna ";
     ChecklistPage.descricao := js "   ";
     ChecklistPage.tipo := js "semanal";
     ChecklistPage.unidade_id := [];
     ChecklistPage.status := js "ativo" |}.

Definition checklistState : ChecklistPage.state :=
  {| ChecklistPage.formData := checklistForm;
     ChecklistPage.editingId := Value 7;
     ChecklistPage.saving := false |}.

Definition checklistRow : ChecklistPage.ChecklistRow :=
  {| ChecklistPage.row_id := 7;
     ChecklistPage.row_nome := js "Ronda noturna";
     ChecklistPage.row_descricao := Null;
     ChecklistPage.row_tipo := Value (js "mensal");
     ChecklistPage.row_unidade_id := Value (js "u2");
     ChecklistPage.row_status := Value (js "inativo") |}.

Definition unidades : list ChecklistPage.UnidadeRow :=
  [{| ChecklistPage.unidade_row_id := js "u1";
      ChecklistPage.unidade_row_nome := js "Sede" |};
   {| ChecklistPage.unidade_row_id := js "u2";
      ChecklistPage.unidade_row_nome := js "Filial" |};
   {| ChecklistPage.unidade_row_id := js "u2";
      ChecklistPage.unidade_row_nome := js "Filial Sul" |}].

(** An engine whose dates are the texts of ten code units and more. *)
Definition toISOString (s : jsstring) : option jsstring :=
  if (10 <=? List.length s)%nat then Some s else None.

Definition respostaRow : RespostasPage.ChecklistRespostaRow :=
  {| RespostasPage.row_id := js "r1";
     RespostasPage.row_execucao_id := Value (js "e1");
     RespostasPage.row_item_id := Null;
     RespostasPage.row_resposta := Value (js "ok");
     RespostasPage.row_conforme := Value false;
     RespostasPage.row_foto_url := Null;
     RespostasPage.row_observacao := Null;
     RespostasPage.row_created_at := Null |}.

(** The form that [handleEdit] makes of [respostaRow]. *)
Definition respostaEdited : RespostasPage.ChecklistRespostaForm :=
  {| RespostasPage.execucao_id := js "e1";
     RespostasPage.item_id := [];
     RespostasPage.resposta := js "ok";
     RespostasPage.conforme := js "false";
     RespostasPage.foto_url := [];
     RespostasPage.observacao := [];
     RespostasPage.created_at := [] |}.

Definition respostaForm : RespostasPage.ChecklistRespostaForm :=
  {| RespostasPage.execucao_id := js "e1";
     RespostasPage.item_id := [];
     RespostasPage.resposta := js "ok";
     RespostasPage.conforme := js "false";
     RespostasPage.foto_url := [];
     RespostasPage.observacao := [];
     RespostasPage.created_at := js "amanha" |}.

Definition respostaState : RespostasPage.state :=
  {| RespostasPage.formData := respostaForm;
     RespostasPage.editingId := Null;
     RespostasPage.saving := false |}.

Definition execucoes : list RespostasPage.ChecklistExecucao :=
  [{| RespostasPage.execucao_row_id := js "e1";
      RespostasPage.execucao_row_status := Value (js "concluido") |};
   {| RespostasPage.execucao_row_id := js "e2";
      RespostasPage.execucao_row_status := Value (js "em_andamento") |}].

(** A generator that draws 10, 20, 30, ... and a backend for which the
    orders below 40 are taken; a backend for which every order is taken;
    and a backend that reports an error at the second query. *)
Definition randomFloor (k : Z) : Z := 10 * k - 1.

Definition takenBelow40 (k ordem : Z) : ItensPage.CountAnswer :=
  {| ItensPage.count := Value (if ordem <? 40 then 1 else 0);
     ItensPage.error := None |}.


Definition failsAtSecond (k ordem : Z) : ItensPage.CountAnswer :=
  {| ItensPage.count := Value 1;
     ItensPage.error := if k =? 2 then Some "timeout"%string else None |}.


Definition part000Form : Part000.ChecklistForm :=
  {| Part000.nome := js "Limpeza";
     Part000.periodicidade := js "diaria";
     Part000.contrato_id := js "none";
     Part000.unidade_id := js "u1" |}.

Definition part000State : Part000.state :=
  {| Part000.formData := part000Form;
     Part000.editingId := Null;
     Part000.saving := false |}.

Definition part000Row (nome unidade : string) : Part000.ChecklistWithRelations :=
  {| Part000.row_id := js nome;
     Part000.row_nome := js nome;
     Part000.row_periodicidade := js "mensal";
     Part000.row_contrato_id := Null;
     Part000.row_unidade_id := Value (js unidade);
     Part000.row_contrato := Null;
     Part000.row_unidade :=
       Value {| Part000.summary_nome := Value (js unidade) |} |}.

(** The names that [Object.prototype] is taken to hold here. *)
Definition inherited (name : jsstring) : bool :=
  strictEq name (js "constructor") || strictEq name (js "toString").

Definition resposta (execucao : string) (created : nullable jsstring)
  : Part001.Resposta :=
  {| Part001.execucao_id := Value (js execucao);
     Part001.created_at := created |}.

End Sample.

(** * Properties *)

Lemma strictEq_true_iff (a b : jsstring) : strictEq a b = true <-> a = b.
Proof.
  revert b; induction a as [|x a IH]; intros [|y b]; simpl; split;
    try discriminate; try reflexivity.
  - intros H. apply andb_true_iff in H as [Hx Ha].
    apply N.eqb_eq in Hx. apply IH in Ha. congruence.
  - intros H. injection H as -> ->.
    rewrite N.eqb_refl. simpl. now apply IH.
Qed.

Lemma asciiLower_digit_or_x (c : code_unit) (k : N) :
  In k [49; 50; 51; 54; 120]%N ->
  asciiLower c = k -> c = k \/ (k = 120 /\ c = 88)%N.
Proof.
  unfold asciiLower. intros Hk.
  destruct ((65 <=? c) && (c <=? 90))%N eqn:E; intros H.
  - apply andb_true_iff in E as [E1 E2].
    apply N.leb_le in E1, E2.
    simpl in Hk. right. lia.
  - now left.
Qed.

Section Properties.

Variable unicodeLower : jsstring -> jsstring.

Local Abbreviation toLowerCase := (toLowerCase unicodeLower).
Local Abbreviation isEscala12x36 := (isEscala12x36 unicodeLower).
Local Abbreviation getEfetivoPlanejadoAjustado :=
  (getEfetivoPlanejadoAjustado unicodeLower).
Local Abbreviation getCoberturaParaPosto :=
  (getCoberturaParaPosto unicodeLower).
Local Abbreviation spec_isTwelveBySixThirtySix :=
  (spec_isTwelveBySixThirtySix unicodeLower).

(** *** Equations of the three functions *)

Lemma isEscala12x36_eq (e : nullable jsstring) :
  isEscala12x36 e = Normal (spec_isTwelveBySixThirtySix e).
Proof.
  destruct e as [| |[|c s]]; reflexivity.
Qed.

Lemma baseEfetivo_eq (posto : PostoEfetivoInfo) :
  baseEfetivo posto = spec_baseline (efetivo_planejado posto).
Proof.
  unfold baseEfetivo, spec_baseline, truthy_number.
  destruct (efetivo_planejado posto) as [| |p]; try reflexivity.
  destruct (Z.eqb_spec p 0), (Z.gtb_spec p 0), (Z.ltb_spec 0 p);
    simpl; lia.
Qed.

Lemma baseEfetivo_pos (posto : PostoEfetivoInfo) : 1 <= baseEfetivo posto.
Proof.
  rewrite baseEfetivo_eq. unfold spec_baseline.
  destruct (efetivo_planejado posto) as [| |p]; try lia.
  destruct (Z.ltb_spec 0 p); lia.
Qed.

Lemma getEfetivoPlanejadoAjustado_eq (posto : PostoEfetivoInfo) :
  getEfetivoPlanejadoAjustado posto =
  Normal (if spec_isTwelveBySixThirtySix (escala posto)
          then Z.max (baseEfetivo posto) MIN_EFETIVO_ESCALA_12X36
          else baseEfetivo posto).
Proof.
  unfold getEfetivoPlanejadoAjustado.
  rewrite isEscala12x36_eq. simpl.
  now destruct (spec_isTwelveBySixThirtySix (escala posto)).
Qed.

Lemma getCoberturaParaPosto_eq (n : Z) (posto : PostoEfetivoInfo) :
  exists necessario,
    getEfetivoPlanejadoAjustado posto = Normal necessario /\
    getCoberturaParaPosto n posto =
    Normal {| efetivoNecessario := necessario;
              efetivoConsiderado := Z.min n necessario;
              estaCoberto := n >=? necessario |}.
Proof.
  unfold getCoberturaParaPosto.
  rewrite getEfetivoPlanejadoAjustado_eq. simpl. eauto.
Qed.

(** On a string whose trimmed form is in Basic Latin the engine's table
    plays no part: the test holds for the label and its one other
    spelling, with a capital X. *)
Lemma isEscala12x36_basic_latin (s : jsstring) :
  forallb isBasicLatin (trim s) = true ->
  (isEscala12x36 (Value s) = Normal true <->
   trim s = js "12x36" \/ trim s = js "12X36").
Proof.
  intros Hs. rewrite isEscala12x36_eq. simpl.
  unfold toLowerCase. rewrite Hs.
  split.
  - intros H. injection H as H. apply strictEq_true_iff in H.
    destruct (trim s) as [|c1 [|c2 [|c3 [|c4 [|c5 [|c6 t]]]]]];
      try discriminate H.
    injection H as H1 H2 H3 H4 H5.
    apply asciiLower_digit_or_x in H1; [|simpl; tauto].
    apply asciiLower_digit_or_x in H2; [|simpl; tauto].
    apply asciiLower_digit_or_x in H3; [|simpl; tauto].
    apply asciiLower_digit_or_x in H4; [|simpl; tauto].
    apply asciiLower_digit_or_x in H5; [|simpl; tauto].
    destruct H1 as [->|[? _]]; [|discriminate].
    destruct H2 as [->|[? _]]; [|discriminate].
    destruct H4 as [->|[? _]]; [|discriminate].
    destruct H5 as [->|[? _]]; [|discriminate].
    destruct H3 as [->|[_ ->]]; [now left|now right].
  - intros [->| ->]; reflexivity.
Qed.

(** The guard of [isEscala12x36] is what keeps the method call from
    throwing: on its own it does throw. *)
Example call_trim_nullish :
  call_trim Null = Throw TypeError /\ call_trim Undefined = Throw TypeError.
Proof. split; reflexivity. Qed.

(** *** The claims on the value level *)

(** C1. For every post whose shift type is a 12x36 rotation,
    [getEfetivoPlanejadoAjustado] returns the greater of the baseline and 4,
    the baseline being the planned headcount if it is present and positive
    and 1 otherwise; a planned headcount of 2 on a 12x36 post gives 4 and one
    of 6 gives 6. *)
Theorem adjusted_headcount_12x36_is_max :
  (forall posto : PostoEfetivoInfo,
      isEscala12x36 (escala posto) = Normal true ->
      getEfetivoPlanejadoAjustado posto =
      Normal (Z.max (spec_baseline (efetivo_planejado posto)) 4)) /\
  getEfetivoPlanejadoAjustado
    {| escala := Value (js "12x36"); efetivo_planejado := Value 2 |}
  = Normal 4 /\
  getEfetivoPlanejadoAjustado
    {| escala := Value (js "12x36"); efetivo_planejado := Value 6 |}
  = Normal 6.
Proof.
  split; [|split; reflexivity].
  intros posto H12.
  rewrite isEscala12x36_eq in H12. injection H12 as H12.
  rewrite getEfetivoPlanejadoAjustado_eq, H12, baseEfetivo_eq.
  reflexivity.
Qed.

(** C2. For every post whose planned headcount is absent, zero or negative
    the baseline is 1, and when moreover the shift type is not a 12x36
    rotation [getEfetivoPlanejadoAjustado] returns exactly 1. *)
Theorem unconfigured_headcount_baseline_one (posto : PostoEfetivoInfo) :
  spec_unconfigured (efetivo_planejado posto) ->
  baseEfetivo posto = 1 /\
  (isEscala12x36 (escala posto) = Normal false ->
   getEfetivoPlanejadoAjustado posto = Normal 1).
Proof.
  intros Hp.
  assert (Hb : baseEfetivo posto = 1).
  { unfold baseEfetivo, truthy_number.
    destruct (efetivo_planejado posto) as [| |p]; try reflexivity.
    simpl in Hp.
    destruct (Z.gtb_spec p 0); [lia|].
    now rewrite andb_false_r. }
  split; [exact Hb|].
  intros H12. rewrite isEscala12x36_eq in H12. injection H12 as H12.
  now rewrite getEfetivoPlanejadoAjustado_eq, H12, Hb.
Qed.

(** C3. [isEscala12x36] returns true if and only if its argument is a string
    that, trimmed of surrounding whitespace and lower-cased, equals the
    literal "12x36", and returns false for every other argument, absent and
    empty included; " 12X36 " gives true, "12x37" gives false, and so do an
    absent value and the empty string. *)
Theorem isEscala12x36_iff_normalised_label :
  (forall e : nullable jsstring,
      exists b : bool,
        isEscala12x36 e = Normal b /\
        (b = true <->
         exists s, e = Value s /\ toLowerCase (trim s) = js "12x36")) /\
  isEscala12x36 (Value (js " 12X36 ")) = Normal true /\
  isEscala12x36 (Value (js "12x37")) = Normal false /\
  isEscala12x36 Undefined = Normal false /\
  isEscala12x36 Null = Normal false /\
  isEscala12x36 (Value []) = Normal false.
Proof.
  split; [|repeat split; reflexivity].
  intros e. exists (spec_isTwelveBySixThirtySix e).
  split; [apply isEscala12x36_eq|].
  destruct e as [| |s]; simpl.
  - split; [discriminate|]. intros (s & Hs & _). discriminate Hs.
  - split; [discriminate|]. intros (s & Hs & _). discriminate Hs.
  - rewrite strictEq_true_iff. split.
    + intros H. now exists s.
    + intros (s' & Hs & H). now injection Hs as ->.
Qed.

(** C4. For every count of active collaborators (non-negative or not) and
    every post, [getCoberturaParaPosto] returns as considered headcount the
    lesser of the count and the required headcount, the required headcount
    being the result of [getEfetivoPlanejadoAjustado]; the considered
    headcount exceeds neither the required headcount nor the count. *)
Theorem considered_is_min (n : Z) (posto : PostoEfetivoInfo) :
  exists (necessario : Z) (c : Cobertura),
    getEfetivoPlanejadoAjustado posto = Normal necessario /\
    getCoberturaParaPosto n posto = Normal c /\
    efetivoNecessario c = necessario /\
    efetivoConsiderado c = Z.min n necessario /\
    efetivoConsiderado c <= efetivoNecessario c /\
    efetivoConsiderado c <= n.
Proof.
  destruct (getCoberturaParaPosto_eq n posto) as (necessario & Hn & Hc).
  eexists; eexists.
  split; [exact Hn|]. split; [exact Hc|]. simpl.
  repeat split; lia.
Qed.

(** C5. For every count of active collaborators and every post, the flag
    [estaCoberto] of the result is true if and only if the count is at least
    the required headcount. *)
Theorem covered_iff_count_reaches_required
    (n : Z) (posto : PostoEfetivoInfo) :
  exists (necessario : Z) (c : Cobertura),
    getEfetivoPlanejadoAjustado posto = Normal necessario /\
    getCoberturaParaPosto n posto = Normal c /\
    (estaCoberto c = true <-> n >= necessario).
Proof.
  destruct (getCoberturaParaPosto_eq n posto) as (necessario & Hn & Hc).
  eexists; eexists.
  split; [exact Hn|]. split; [exact Hc|]. simpl.
  rewrite Z.geb_le. lia.
Qed.

(** C6. For every post the result of [getEfetivoPlanejadoAjustado] is an
    integer that is at least 1, and at least 4 whenever the shift type is a
    12x36 rotation. *)
Theorem adjusted_headcount_lower_bounds (posto : PostoEfetivoInfo) :
  exists v : Z,
    getEfetivoPlanejadoAjustado posto = Normal v /\
    1 <= v /\
    (isEscala12x36 (escala posto) = Normal true -> 4 <= v).
Proof.
  eexists. split; [apply getEfetivoPlanejadoAjustado_eq|].
  pose proof (baseEfetivo_pos posto) as Hb.
  rewrite isEscala12x36_eq. unfold MIN_EFETIVO_ESCALA_12X36.
  destruct (spec_isTwelveBySixThirtySix (escala posto)).
  - split; [lia|]. intros _. lia.
  - split; [lia|]. discriminate.
Qed.

(** C7. The three end-to-end scenarios: a 12x36 post planned for 1 with 3
    active collaborators needs 4, counts 3 and is not covered; a "diarista"
    post planned for 2 with 2 active collaborators needs 2, counts 2 and is
    covered; a post with neither shift type nor planned headcount and no
    active collaborator needs 1, counts 0 and is not covered. *)
Theorem coverage_scenarios :
  getCoberturaParaPosto 3
    {| escala := Value (js "12x36"); efetivo_planejado := Value 1 |}
  = Normal {| efetivoNecessario := 4; efetivoConsiderado := 3;
              estaCoberto := false |} /\
  getCoberturaParaPosto 2
    {| escala := Value (js "diarista"); efetivo_planejado := Value 2 |}
  = Normal {| efetivoNecessario := 2; efetivoConsiderado := 2;
              estaCoberto := true |} /\
  getCoberturaParaPosto 0
    {| escala := Null; efetivo_planejado := Null |}
  = Normal {| efetivoNecessario := 1; efetivoConsiderado := 0;
              estaCoberto := false |}.
Proof. repeat split; reflexivity. Qed.

(** C8. The three operations are total: on every argument, absent, empty,
    zero and negative fields included, each completes normally with a value
    and never throws. *)
Theorem coverage_functions_total :
  (forall e : nullable jsstring, exists b, isEscala12x36 e = Normal b) /\
  (forall posto : PostoEfetivoInfo,
      exists v, getEfetivoPlanejadoAjustado posto = Normal v) /\
  (forall (n : Z) (posto : PostoEfetivoInfo),
      exists c, getCoberturaParaPosto n posto = Normal c).
Proof.
  repeat split.
  - intros e. eexists. apply isEscala12x36_eq.
  - intros posto. eexists. apply getEfetivoPlanejadoAjustado_eq.
  - intros n posto.
    destruct (getCoberturaParaPosto_eq n posto) as (v & _ & Hc). eauto.
Qed.

(** C10. For every count of active collaborators and every post, the result
    of [getCoberturaParaPosto] is covered if and only if its considered
    headcount equals its required headcount; and whenever it is not covered,
    its considered headcount is the count itself. *)
Theorem covered_iff_considered_is_required
    (n : Z) (posto : PostoEfetivoInfo) :
  exists c : Cobertura,
    getCoberturaParaPosto n posto = Normal c /\
    (estaCoberto c = true <-> efetivoConsiderado c = efetivoNecessario c) /\
    (estaCoberto c = false -> efetivoConsiderado c = n).
Proof.
  destruct (getCoberturaParaPosto_eq n posto) as (necessario & _ & Hc).
  eexists. split; [exact Hc|]. simpl.
  destruct (Z.geb_spec n necessario); split; try split;
    try discriminate; try reflexivity; lia.
Qed.

End Properties.

(** *** Reads only: the heap level *)

(** The heap model does tell a write apart from a read. *)
Example set_efetivo_planejado_writes :
  let h : Heap.heap :=
    fun _ => {| escala := Null; efetivo_planejado := Null |} in
  efetivo_planejado (snd (Heap.set_efetivo_planejado 0%nat (Value 5) h) 0%nat)
  <> efetivo_planejado (h 0%nat).
Proof. simpl. discriminate. Qed.

Section HeapProperties.

Variable unicodeLower : jsstring -> jsstring.

Lemma heap_getEfetivoPlanejadoAjustado_run (r : Heap.ref) (h : Heap.heap) :
  Heap.getEfetivoPlanejadoAjustado unicodeLower r h =
  (getEfetivoPlanejadoAjustado unicodeLower (h r), h).
Proof.
  unfold Heap.getEfetivoPlanejadoAjustado, getEfetivoPlanejadoAjustado,
    baseEfetivo, Heap.get_efetivo_planejado, Heap.get_escala, Heap.lift,
    Heap.as_number, Heap.lift.
  cbn.
  destruct (efetivo_planejado (h r)) as [| |p] eqn:Hp; cbn.
  1, 2: destruct (isEscala12x36 unicodeLower (escala (h r))) as [[|]|];
    reflexivity.
  destruct (truthy_number p); cbn; rewrite ?Hp; cbn.
  - destruct (p >? 0); cbn; rewrite ?Hp; cbn;
      destruct (isEscala12x36 unicodeLower (escala (h r))) as [[|]|];
      reflexivity.
  - destruct (isEscala12x36 unicodeLower (escala (h r))) as [[|]|];
      reflexivity.
Qed.

Lemma heap_getCoberturaParaPosto_run (n : Z) (r : Heap.ref) (h : Heap.heap) :
  Heap.getCoberturaParaPosto unicodeLower n r h =
  (getCoberturaParaPosto unicodeLower n (h r), h).
Proof.
  unfold Heap.getCoberturaParaPosto, getCoberturaParaPosto. simpl.
  rewrite heap_getEfetivoPlanejadoAjustado_run.
  destruct (getEfetivoPlanejadoAjustado unicodeLower (h r)); reflexivity.
Qed.

(** C9. Each run of the operations is a pure, deterministic function of its
    arguments: with the post held in a heap, a run leaves the heap as it
    found it and returns what the function on values returns on the
    contents of the post, so that two runs on posts of equal contents, in
    whatever heaps, return equal results, and a second run after a first,
    on the heap the first left, returns the same result as the first.
    [isEscala12x36] takes a string, a primitive value, and is run inside
    [getEfetivoPlanejadoAjustado]. *)
Theorem coverage_functions_pure
    (n : Z) (r : Heap.ref) (h : Heap.heap) :
  Heap.getEfetivoPlanejadoAjustado unicodeLower r h =
    (getEfetivoPlanejadoAjustado unicodeLower (h r), h) /\
  Heap.getCoberturaParaPosto unicodeLower n r h =
    (getCoberturaParaPosto unicodeLower n (h r), h) /\
  (forall (r' : Heap.ref) (h' : Heap.heap),
      h' r' = h r ->
      fst (Heap.getEfetivoPlanejadoAjustado unicodeLower r' h') =
        fst (Heap.getEfetivoPlanejadoAjustado unicodeLower r h) /\
      fst (Heap.getCoberturaParaPosto unicodeLower n r' h') =
        fst (Heap.getCoberturaParaPosto unicodeLower n r h)) /\
  (exists c : Cobertura,
      (first <- Heap.getCoberturaParaPosto unicodeLower n r ;;
       second <- Heap.getCoberturaParaPosto unicodeLower n r ;;
       ret (first, second)) h = (Normal (c, c), h)).
Proof.
  split; [apply heap_getEfetivoPlanejadoAjustado_run|].
  split; [apply heap_getCoberturaParaPosto_run|].
  split.
  - intros r' h' Heq.
    rewrite !heap_getEfetivoPlanejadoAjustado_run,
      !heap_getCoberturaParaPosto_run. simpl.
    now rewrite Heq.
  - destruct (getCoberturaParaPosto_eq unicodeLower n (h r))
      as (v & _ & Hc).
    eexists. simpl.
    rewrite heap_getCoberturaParaPosto_run, Hc.
    rewrite heap_getCoberturaParaPosto_run, Hc.
    reflexivity.
Qed.

End HeapProperties.

(** * The claims at concrete posts *)

Lemma adjusted_headcount_12x36_is_max_witness :
  getEfetivoPlanejadoAjustado noUnicodeLower
    {| escala := Value (js " 12X36 "); efetivo_planejado := Value 7 |}
  = Normal 7.
Proof.
  apply (proj1 (adjusted_headcount_12x36_is_max noUnicodeLower)
           {| escala := Value (js " 12X36 ");
              efetivo_planejado := Value 7 |}).
  reflexivity.
Defined.

Lemma unconfigured_headcount_baseline_one_witness :
  getEfetivoPlanejadoAjustado noUnicodeLower
    {| escala := Value (js "diarista"); efetivo_planejado := Value (-3) |}
  = Normal 1.
Proof.
  apply (unconfigured_headcount_baseline_one noUnicodeLower
           {| escala := Value (js "diarista");
              efetivo_planejado := Value (-3) |}).
  - simpl. lia.
  - reflexivity.
Defined.

Lemma adjusted_headcount_lower_bounds_witness :
  exists v : Z,
    getEfetivoPlanejadoAjustado noUnicodeLower
      {| escala := Value (js "12x36"); efetivo_planejado := Undefined |}
    = Normal v /\ 4 <= v.
Proof.
  destruct (adjusted_headcount_lower_bounds noUnicodeLower
              {| escala := Value (js "12x36");
                 efetivo_planejado := Undefined |})
    as (v & Hv & _ & H4).
  exists v. split; [exact Hv|]. apply H4. reflexivity.
Defined.

Lemma covered_iff_considered_is_required_witness :
  exists c : Cobertura,
    getCoberturaParaPosto noUnicodeLower 3
      {| escala := Value (js "12x36"); efetivo_planejado := Value 1 |}
    = Normal c /\ efetivoConsiderado c = 3.
Proof.
  destruct (covered_iff_considered_is_required noUnicodeLower 3
              {| escala := Value (js "12x36");
                 efetivo_planejado := Value 1 |})
    as (c & Hc & _ & Hn).
  exists c. split; [exact Hc|]. apply Hn.
  simpl in Hc. injection Hc as <-. reflexivity.
Defined.

Lemma coverage_functions_pure_witness :
  let h1 : Heap.heap :=
    fun _ =>
      {| escala := Value (js "12x36"); efetivo_planejado := Value 1 |} in
  let h2 : Heap.heap :=
    fun r => match r with
             | 1%nat => {| escala := Value (js "12x36");
                           efetivo_planejado := Value 1 |}
             | _ => {| escala := Null; efetivo_planejado := Value 9 |}
             end in
  fst (Heap.getCoberturaParaPosto noUnicodeLower 3 1%nat h2) =
  fst (Heap.getCoberturaParaPosto noUnicodeLower 3 0%nat h1).
Proof.
  intros h1 h2.
  apply (proj1 (proj2 (proj2 (coverage_functions_pure noUnicodeLower
                                3 0%nat h1)))
           1%nat h2).
  reflexivity.
Defined.

(** * The pages: properties *)

(** ** [trim] *)

Lemma trimStart_split (s : jsstring) :
  exists w, s = w ++ trimStart s /\ forallb isWhiteSpace w = true.
Proof.
  induction s as [|c s (w & Hs & Hw)]; simpl.
  - now exists [].
  - destruct (isWhiteSpace c) eqn:Hc.
    + exists (c :: w). simpl. rewrite Hc, Hw. split; [congruence|reflexivity].
    + now exists [].
Qed.

Lemma trimStart_starts (s : jsstring) :
  startsWithWhiteSpace (trimStart s) = false.
Proof.
  induction s as [|c s IH]; simpl; [reflexivity|].
  destruct (isWhiteSpace c) eqn:Hc; [exact IH|]. simpl. exact Hc.
Qed.

Lemma trimStart_fixed (s : jsstring) :
  startsWithWhiteSpace s = false -> trimStart s = s.
Proof.
  destruct s as [|c s]; simpl; [reflexivity|]. now intros ->.
Qed.

Lemma trimStart_nil_iff (s : jsstring) :
  trimStart s = [] <-> forallb isWhiteSpace s = true.
Proof.
  induction s as [|c s IH]; simpl; [tauto|].
  destruct (isWhiteSpace c); simpl; [exact IH|].
  split; discriminate.
Qed.

Lemma trim_ends (s : jsstring) : endsWithWhiteSpace (trim s) = false.
Proof.
  unfold endsWithWhiteSpace, trim, trimEnd.
  rewrite rev_involutive. apply trimStart_starts.
Qed.

Lemma trim_starts (s : jsstring) : startsWithWhiteSpace (trim s) = false.
Proof.
  unfold trim, trimEnd.
  pose proof (trimStart_starts s) as Hu.
  destruct (trimStart_split (rev (trimStart s))) as (w & Hs & _).
  apply (f_equal (@rev code_unit)) in Hs.
  rewrite rev_involutive, rev_app_distr in Hs.
  destruct (rev (trimStart (rev (trimStart s)))) as [|c t]; [reflexivity|].
  rewrite Hs in Hu. exact Hu.
Qed.

Lemma trim_fixed (s : jsstring) :
  startsWithWhiteSpace s = false -> endsWithWhiteSpace s = false ->
  trim s = s.
Proof.
  intros Hs He. unfold trim, trimEnd.
  rewrite (trimStart_fixed s Hs), (trimStart_fixed (rev s) He).
  apply rev_involutive.
Qed.

Lemma trim_idempotent (s : jsstring) : trim (trim s) = trim s.
Proof. apply trim_fixed; [apply trim_starts|apply trim_ends]. Qed.

Lemma trim_nil_iff (s : jsstring) :
  trim s = [] <-> forallb isWhiteSpace s = true.
Proof.
  rewrite <- trimStart_nil_iff. unfold trim, trimEnd. split.
  - intros H. apply (f_equal (@rev code_unit)) in H.
    rewrite rev_involutive in H. simpl in H.
    apply trimStart_nil_iff in H. rewrite forallb_forall in H.
    destruct (trimStart s) as [|c t] eqn:E; [reflexivity|].
    pose proof (trimStart_starts s) as Hc. rewrite E in Hc. simpl in Hc.
    rewrite (H c) in Hc; [discriminate|].
    apply in_rev. rewrite rev_involutive. now left.
  - now intros ->.
Qed.


Lemma nullable_jsstring_eq_dec (a b : nullable jsstring) :
  {a = b} + {a <> b}.
Proof.
  decide equality. apply (list_eq_dec N.eq_dec).
Qed.


(** ** Checklist.tsx *)

Section ChecklistPageProperties.

Import ChecklistPage.

Variables (form : ChecklistForm) (editingId : nullable Z) (error : bool).





(** X3. A run of [handleSubmit] of Checklist.tsx that sends a request ends
    with the saving flag down, whether the backend reports an error or not.
    After a success the form is back to its initial contents and no
    checklist is being edited; after an error the form and the checklist
    being edited are those of before, so that the user can try again. *)
Theorem checklist_submit_final_state (s : state) :
  forallb isWhiteSpace (nome form) = false ->
  let s' := run s (handleSubmit form editingId error) in
  saving s' = false /\
  (error = false ->
   ChecklistPage.formData s' = initialForm /\
   ChecklistPage.editingId s' = Null) /\
  (error = true ->
   ChecklistPage.formData s' = ChecklistPage.formData s /\
   ChecklistPage.editingId s' = ChecklistPage.editingId s).
Proof.
  intros H. unfold handleSubmit.
  destruct (trim (nome form)) as [|c t] eqn:E.
  - assert (Hn : trim (nome form) = []) by exact E.
    apply trim_nil_iff in Hn. congruence.
  - destruct error, (editing editingId); simpl;
      (split; [reflexivity|split; intros Herr;
                           try discriminate Herr; now split]).
Qed.

End ChecklistPageProperties.

Section ChecklistEditProperties.

Import ChecklistPage.

Variable checklist : ChecklistRow.






End ChecklistEditProperties.

Section ChecklistUnidadeProperties.

Import ChecklistPage.

Lemma unidadeMap_fold (unidades : list UnidadeRow)
    (map : list (jsstring * jsstring)) :
  fold_left
    (fun map unidade =>
       Map_set map (unidade_row_id unidade) (unidade_row_nome unidade))
    unidades map
  = List.map (fun u => (unidade_row_id u, unidade_row_nome u)) (rev unidades)
    ++ map.
Proof.
  revert map; induction unidades as [|u l IH]; intros map; simpl.
  - reflexivity.
  - rewrite IH, map_app, <- app_assoc. reflexivity.
Qed.

Lemma unidadeMap_get (unidades : list UnidadeRow) (k : jsstring) :
  Map_get (unidadeMap unidades) k =
  option_map unidade_row_nome
    (find (fun u => strictEq (unidade_row_id u) k) (rev unidades)).
Proof.
  unfold unidadeMap. rewrite unidadeMap_fold, app_nil_r.
  unfold Map_get. induction (rev unidades) as [|u l IH]; simpl.
  - reflexivity.
  - destruct (strictEq (unidade_row_id u) k); [reflexivity|exact IH].
Qed.

Lemma find_last_match (before after : list UnidadeRow) (x : UnidadeRow)
    (k : jsstring) :
  unidade_row_id x = k ->
  (forall y, In y after -> unidade_row_id y <> k) ->
  find (fun u => strictEq (unidade_row_id u) k) (rev (before ++ x :: after))
  = Some x.
Proof.
  intros Hx Hafter. rewrite rev_app_distr. simpl. rewrite <- app_assoc.
  assert (Hnone : forall l : list UnidadeRow,
             (forall y, In y l -> unidade_row_id y <> k) ->
             forall rest,
               find (fun u => strictEq (unidade_row_id u) k) (l ++ rest) =
               find (fun u => strictEq (unidade_row_id u) k) rest).
  { induction l as [|y l IH]; intros Hl rest; simpl; [reflexivity|].
    destruct (strictEq (unidade_row_id y) k) eqn:E.
    - apply strictEq_true_iff in E. exfalso. apply (Hl y); [now left|exact E].
    - apply IH. intros z Hz. apply Hl. now right. }
  rewrite Hnone.
  - simpl. apply strictEq_true_iff in Hx. now rewrite Hx.
  - intros y Hy. apply Hafter. now apply in_rev.
Qed.

(** X6. The unit cell of the table of Checklist.tsx shows, for a checklist
    with a unit identifier, the name of the last loaded unit with that
    identifier, and a dash when no loaded unit has it; it shows a dash for a
    checklist without unit, and nothing at all for an empty identifier. *)
Theorem checklist_unidade_cell (unidades : list UnidadeRow)
    (checklist : ChecklistRow) :
  (forall u before x after,
      row_unidade_id checklist = Value u -> u <> [] ->
      unidades = before ++ x :: after ->
      unidade_row_id x = u ->
      (forall y, In y after -> unidade_row_id y <> u) ->
      unidadeCell unidades checklist = unidade_row_nome x) /\
  (forall u,
      row_unidade_id checklist = Value u -> u <> [] ->
      (forall y, In y unidades -> unidade_row_id y <> u) ->
      unidadeCell unidades checklist = js "-") /\
  (row_unidade_id checklist = Null -> unidadeCell unidades checklist = js "-")
  /\
  (row_unidade_id checklist = Value [] -> unidadeCell unidades checklist = []).
Proof.
  unfold unidadeCell. repeat split.
  - intros u before x after -> Hu -> Hx Hafter.
    destruct u as [|c u]; [contradiction|].
    rewrite unidadeMap_get, (find_last_match before after x (c :: u) Hx Hafter).
    reflexivity.
  - intros u -> Hu Hnone.
    destruct u as [|c u]; [contradiction|].
    rewrite unidadeMap_get.
    destruct (find _ (rev unidades)) as [y|] eqn:E; [|reflexivity].
    apply find_some in E as (Hy & E). apply strictEq_true_iff in E.
    exfalso. apply (Hnone y); [now apply in_rev|exact E].
  - now intros ->.
  - now intros ->.
Qed.

End ChecklistUnidadeProperties.

(** ** ChecklistRespostas.tsx *)

Section RespostasPageProperties.

Import RespostasPage.

Variable toISOString : jsstring -> option jsstring.

Local Abbreviation payload := (payload toISOString).
Local Abbreviation handleSubmit := (handleSubmit toISOString).
Local Abbreviation handleEdit := (handleEdit toISOString).

Lemma respostas_payload_fields (form : ChecklistRespostaForm)
    (p : ChecklistRespostaInsert) :
  payload form = Some p ->
  ins_execucao_id p = execucao_id form /\
  ins_item_id p = or_null (item_id form) /\
  ins_conforme p =
    (if strictEq (conforme form) (js "null") then Null
     else Value (strictEq (conforme form) (js "true"))).
Proof.
  unfold RespostasPage.payload.
  destruct (nonEmpty (created_at form)).
  - destruct (toISOString (created_at form)); [|discriminate].
    intros H. injection H as <-. now repeat split.
  - intros H. injection H as <-. now repeat split.
Qed.

Lemma respostas_edit_form (row : ChecklistRespostaRow)
    (form : ChecklistRespostaForm) :
  In (SetFormData form) (handleEdit row) ->
  execucao_id form = coalesce (row_execucao_id row) [] /\
  item_id form = coalesce (row_item_id row) [] /\
  conforme form =
    match row_conforme row with
    | Null => js "null"
    | Value true => js "true"
    | Value false | Undefined => js "false"
    end.
Proof.
  unfold RespostasPage.handleEdit.
  assert (Hone : forall f : ChecklistRespostaForm,
             In (SetFormData form) [SetEditingId (Value (row_id row));
                                    SetFormData f] -> form = f).
  { intros f [H|[H|[]]]; [discriminate|now injection H]. }
  destruct (row_created_at row) as [| |stamp].
  1, 2: intros H; apply Hone in H; subst form; now repeat split.
  destruct (nonEmpty stamp).
  - destruct (toISOString stamp).
    + intros H; apply Hone in H; subst form; now repeat split.
    + intros [H|[H|[]]]; discriminate.
  - intros H; apply Hone in H; subst form; now repeat split.
Qed.

(** X7. The three-valued answer "conforme" survives the form of
    ChecklistRespostas.tsx: when a row is opened with [handleEdit] and the
    form is saved untouched, the payload holds the [conforme] of the row,
    [null], [true] or [false], and the form held one of the three texts
    "null", "true" and "false"; the execution of the row and its item
    ([null] or not empty) are those of the payload too. *)
Theorem respostas_edit_then_submit_keeps_conforme
    (row : ChecklistRespostaRow) (form : ChecklistRespostaForm)
    (p : ChecklistRespostaInsert) :
  In (SetFormData form) (handleEdit row) ->
  payload form = Some p ->
  row_conforme row <> Undefined ->
  In (conforme form) [js "null"; js "true"; js "false"] /\
  ins_conforme p = row_conforme row /\
  (forall e, row_execucao_id row = Value e -> ins_execucao_id p = e) /\
  (row_item_id row = Null \/
   (exists i, row_item_id row = Value i /\ i <> []) ->
   ins_item_id p = row_item_id row).
Proof.
  intros Hf Hp Hc.
  apply respostas_edit_form in Hf as (He & Hi & Hcf).
  apply respostas_payload_fields in Hp as (Hpe & Hpi & Hpc).
  rewrite Hpe, Hpi, Hpc, He, Hi, Hcf.
  repeat split.
  - destruct (row_conforme row) as [| |[|]]; simpl; tauto.
  - destruct (row_conforme row) as [| |[|]]; try reflexivity.
    contradiction.
  - now intros e ->.
  - intros [->|(i & -> & Hne)]; [reflexivity|].
    destruct i; [contradiction|reflexivity].
Qed.

Variables (form : ChecklistRespostaForm) (execucoes : list ChecklistExecucao)
  (editingId : nullable jsstring) (error : bool).

Local Abbreviation selected :=
  (find (fun execucao =>
           strictEq (execucao_row_id execucao) (execucao_id form))
     execucoes).

(** X8. [handleSubmit] of ChecklistRespostas.tsx registers no answer for an
    execution that is concluded: when the first loaded execution with the
    identifier of the form has the status "concluido", nothing is sent to
    the backend and the component state is left as it was.  Whenever a
    request is sent, the form names an execution and the first loaded
    execution of that identifier, if there is one, is not concluded. *)
Theorem respostas_submit_refuses_concluded (s : state) :
  (forall execucao,
      selected = Some execucao ->
      execucao_row_status execucao = Value (js "concluido") ->
      requests (handleSubmit form execucoes editingId error) = [] /\
      run s (handleSubmit form execucoes editingId error) = s) /\
  (requests (handleSubmit form execucoes editingId error) <> [] ->
   execucao_id form <> [] /\
   forall execucao,
     selected = Some execucao ->
     execucao_row_status execucao <> Value (js "concluido")).
Proof.
  unfold RespostasPage.handleSubmit. split.
  - intros execucao Hsel Hst.
    destruct (nonEmpty (execucao_id form)); [|now split].
    cbn [negb]. rewrite Hsel. unfold concluded. rewrite Hst.
    now split.
  - destruct (nonEmpty (execucao_id form)) eqn:Ei; [|intros H; now elim H].
    cbn [negb].
    assert (Hid : execucao_id form <> [])
      by (intros Heq; rewrite Heq in Ei; discriminate).
    destruct selected as [execucao|] eqn:Hsel.
    + unfold concluded.
      destruct (execucao_row_status execucao) as [| |st] eqn:Hst.
      * intros _. split; [exact Hid|].
        intros e He. injection He as <-. rewrite Hst. discriminate.
      * intros _. split; [exact Hid|].
        intros e He. injection He as <-. rewrite Hst. discriminate.
      * destruct (strictEq st (js "concluido")) eqn:E;
          [intros H; now elim H|].
        intros _. split; [exact Hid|].
        intros e He. injection He as <-. rewrite Hst.
        intros Heq. injection Heq as ->. discriminate E.
    + intros _. split; [exact Hid|]. discriminate.
Qed.


End RespostasPageProperties.

(** ** Colaboradores.tsx: the checklist items page *)

Section ItensPageProperties.

Import ItensPage.

Variable randomFloor : Z -> Z.
Variable answer : Z -> Z -> CountAnswer.

Local Abbreviation gerarOrdemUnica_loop :=
  (gerarOrdemUnica_loop randomFloor answer).
Local Abbreviation gerarOrdemUnica := (gerarOrdemUnica randomFloor answer).
Local Abbreviation ordemDaTentativa := (ordemDaTentativa randomFloor).
Local Abbreviation answeredFree := (answeredFree randomFloor answer).
Local Abbreviation answeredTaken := (answeredTaken randomFloor answer).
Local Abbreviation handleSubmit := (handleSubmit randomFloor answer).

Local Abbreviation loop_result := (loop_result randomFloor answer).

Lemma gerarOrdemUnica_loop_spec (fuel : nat) :
  forall (t : Z) (queried : list Z),
    0 <= t <= 50 -> 50 - t < Z.of_nat fuel ->
    exists r, gerarOrdemUnica_loop fuel t queried = Some r /\
              loop_result t queried r.
Proof.
  induction fuel as [|fuel IH]; intros t queried Ht Hfuel; [lia|].
  cbn [ItensPage.gerarOrdemUnica_loop].
  destruct (Z.ltb_spec t 50) as [Hlt|Hge].
  - fold (ordemDaTentativa (t + 1)).
    destruct (error (answer (t + 1) (ordemDaTentativa (t + 1))))
      as [m|] eqn:Eerr.
    + eexists. split; [reflexivity|].
      exists (t + 1), [ordemDaTentativa (t + 1)]. cbn.
      repeat split; try lia.
      left. split; [lia|exact Eerr].
    + destruct (free (count (answer (t + 1) (ordemDaTentativa (t + 1)))))
        eqn:Efree.
      * eexists. split; [reflexivity|].
        exists (t + 1), [ordemDaTentativa (t + 1)]. cbn.
        repeat split; try lia.
        unfold ItensPage.answeredFree. now rewrite Eerr.
      * destruct (IH (t + 1) (ordemDaTentativa (t + 1) :: queried))
          as ((out & q') & Hrun & k & new & Hq & Hlen & Hk & Hbefore & Hout);
          [lia|lia|].
        assert (Htaken : answeredTaken (t + 1) = true).
        { unfold ItensPage.answeredTaken. now rewrite Eerr, Efree. }
        exists (out, q'). split; [exact Hrun|].
        exists k, (new ++ [ordemDaTentativa (t + 1)]).
        cbn [fst snd] in *.
        split; [now rewrite <- app_assoc|].
        split; [rewrite length_app; cbn; lia|].
        split; [lia|].
        split.
        { intros j Hj. destruct (Z.eq_dec j (t + 1)) as [->|Hne];
            [exact Htaken|apply Hbefore; lia]. }
        destruct out as [v|m].
        -- destruct Hout as (Hkt & Hv & Hhd & Hfree).
           repeat split; try lia; try assumption.
           destruct new; [discriminate Hhd|exact Hhd].
        -- destruct Hout as [(Hkt & Herr)|(Hk50 & H50 & Hm)].
           ++ left. split; [lia|exact Herr].
           ++ right. repeat split; try assumption.
              intros _. destruct (Z.eq_dec (t + 1) 50) as [E|E].
              ** now rewrite <- E.
              ** apply H50. lia.
  - eexists. split; [reflexivity|].
    exists t, []. cbn. repeat split; try lia.
    right. repeat split; try lia.
Qed.

Lemma gerarOrdemUnica_loop_more_fuel (f1 : nat) :
  forall (f2 : nat) (t : Z) (q : list Z) (r : outcome Z * list Z),
    gerarOrdemUnica_loop f1 t q = Some r -> (f1 <= f2)%nat ->
    gerarOrdemUnica_loop f2 t q = Some r.
Proof.
  induction f1 as [|f1 IH]; intros f2 t q r H1 Hle; [discriminate|].
  destruct f2 as [|f2]; [lia|].
  cbn [ItensPage.gerarOrdemUnica_loop] in H1 |- *.
  destruct (t <? 50); [|exact H1].
  destruct (error (answer (t + 1) (randomFloor (t + 1) + min)));
    [exact H1|].
  destruct (free (count (answer (t + 1) (randomFloor (t + 1) + min))));
    [exact H1|].
  apply IH; [exact H1|lia].
Qed.

(** X10. [gerarOrdemUnica] of the checklist items page always ends: with
    fuel for 51 turns or more the loop ends, with the same result whatever
    the fuel, and it has queried the backend at most 50 times. *)
Theorem itens_gerarOrdemUnica_ends (fuel : nat) :
  (51 <= fuel)%nat ->
  exists r : outcome Z * list Z,
    gerarOrdemUnica fuel = Some r /\
    gerarOrdemUnica 51 = Some r /\
    (List.length (snd r) <= 50)%nat.
Proof.
  intros Hfuel.
  destruct (gerarOrdemUnica_loop_spec 51 0 []) as (r & Hr & Hspec);
    [lia|lia|].
  exists r. split; [|split].
  - exact (gerarOrdemUnica_loop_more_fuel 51 fuel 0 [] r Hr Hfuel).
  - exact Hr.
  - destruct Hspec as (k & new & Hq & Hlen & Hk & _).
    rewrite Hq, app_nil_r. lia.
Qed.


(** X12. When [gerarOrdemUnica] throws, either the backend has reported an
    error at an attempt, which is the error thrown and ends the loop there,
    or the backend has answered at each of the 50 attempts that an item has
    the order drawn, and the error says that no unique order could be
    generated; in both cases every earlier attempt was answered that an
    item has the order drawn. *)
Theorem itens_gerarOrdemUnica_throws
    (fuel : nat) (m : string) (queried : list Z) :
  gerarOrdemUnica fuel = Some (Threw m, queried) ->
  (exists k : Z,
      1 <= k <= 50 /\
      error (answer k (ordemDaTentativa k)) = Some m /\
      (forall j, 1 <= j < k -> answeredTaken j = true) /\
      Z.of_nat (List.length queried) = k) \/
  (m = noUniqueOrder /\
   (forall j, 1 <= j <= 50 -> answeredTaken j = true) /\
   List.length queried = 50%nat).
Proof.
  intros Hrun.
  assert (H51 : gerarOrdemUnica (Nat.max fuel 51) = Some (Threw m, queried))
    by (apply (gerarOrdemUnica_loop_more_fuel fuel); [exact Hrun|lia]).
  destruct (gerarOrdemUnica_loop_spec (Nat.max fuel 51) 0 [])
    as (r & Hr & k & new & Hq & Hlen & Hk & Hbefore & Hout); [lia|lia|].
  unfold ItensPage.gerarOrdemUnica in H51. rewrite H51 in Hr.
  injection Hr as <-. cbn [fst snd] in *.
  rewrite app_nil_r in Hq. subst queried.
  destruct Hout as [(Hkt & Herr)|(Hk50 & H50 & Hm)].
  - left. exists k. repeat split; try lia; try assumption.
    intros j Hj. apply Hbefore. lia.
  - right. repeat split; try assumption; try lia.
    intros j Hj. destruct (Z.eq_dec j 50) as [->|Hne].
    + apply H50. lia.
    + apply Hbefore. lia.
Qed.


End ItensPageProperties.

(** ** The checklist page of the first unnamed source file *)

Section Part000Properties.

Import Part000.

Variable unicodeLower : jsstring -> jsstring.

Local Abbreviation toLowerCase := (toLowerCase unicodeLower).

(** X14. The label that [getPeriodicidadeLabel] gives a periodicity is the
    periodicity itself up to the case of its letters, whether it is one of
    the seven options or not: lower-cased, the label and the value are the
    same string. *)
Theorem part000_periodicidade_label_is_value (value : jsstring) :
  toLowerCase (getPeriodicidadeLabel value) = toLowerCase value.
Proof.
  unfold getPeriodicidadeLabel.
  destruct (find _ periodicidadeOptions) as [opt|] eqn:E; [|reflexivity].
  apply find_some in E as (Hin & Heq).
  apply strictEq_true_iff in Heq. subst value.
  simpl in Hin.
  repeat (destruct Hin as [<-|Hin]; [reflexivity|]).
  destruct Hin.
Qed.

End Part000Properties.

Section Part000SubmitProperties.

Import Part000.

Variables (form : ChecklistForm) (editingId : nullable jsstring).


(** X16. Opening a row with [handleEdit] of this page and saving the form
    untouched sends the update of that row with its own name, periodicity,
    contract and unit, a missing contract or unit going through the form as
    "none" and back to [null]; this holds for a row with a name and an
    identifier, whose contract and unit are not the text "none". *)
Theorem part000_edit_then_submit_keeps_row (entry : ChecklistWithRelations)
    (s : state) (saveError loadError : bool) :
  row_nome entry <> [] -> row_id entry <> [] ->
  (row_contrato_id entry = Null \/
   exists c, row_contrato_id entry = Value c /\ c <> js "none") ->
  (row_unidade_id entry = Null \/
   exists u, row_unidade_id entry = Value u /\ u <> js "none") ->
  let s' := run s (handleEdit entry) in
  requests (handleSubmit (Part000.formData s') (Part000.editingId s')
              saveError loadError)
  = [Update {| ins_nome := row_nome entry;
               ins_periodicidade := row_periodicidade entry;
               ins_contrato_id := row_contrato_id entry;
               ins_unidade_id := row_unidade_id entry |}
       (row_id entry)].
Proof.
  intros Hn Hid Hc Hu s'. subst s'.
  assert (Hback : forall v : nullable jsstring,
             (v = Null \/ exists x, v = Value x /\ x <> js "none") ->
             none_to_null (coalesce v (js "none")) = v).
  { intros v [->|(x & -> & Hx)]; [reflexivity|].
    unfold none_to_null. cbn [coalesce].
    destruct (strictEq x (js "none")) eqn:E; [|reflexivity].
    apply strictEq_true_iff in E. contradiction. }
  unfold handleSubmit, handleEdit, payload.
  cbn [run fold_left step Part000.formData Part000.editingId nome
       periodicidade contrato_id unidade_id].
  rewrite (Hback _ Hc), (Hback _ Hu).
  destruct (row_nome entry) as [|c n] eqn:En; [contradiction|].
  unfold editing.
  destruct (row_id entry) as [|c' i] eqn:Ei; [contradiction|].
  cbn [nonEmpty negb].
  destruct saveError, loadError; reflexivity.
Qed.

End Part000SubmitProperties.

Lemma String_includes_empty (s : jsstring) : String_includes s [] = true.
Proof. destruct s; reflexivity. Qed.

Section Part000FilterProperties.

Import Part000.

Variable unicodeLower : jsstring -> jsstring.

Local Abbreviation filteredChecklists := (filteredChecklists unicodeLower).

(** X17. The list of this page: with an empty search text it shows the
    checklists of the unit chosen in the filter, all of them when the
    filter is "all"; and whatever the search text, a checklist that is
    shown is a loaded one and, unless the filter is "all", has the unit of
    the filter. *)
Theorem part000_filter_by_unit (checklists : list ChecklistWithRelations)
    (searchTerm unidadeFilter : jsstring) :
  filteredChecklists checklists [] (js "all") = checklists /\
  filteredChecklists checklists [] unidadeFilter =
    filter (fun c => strictEq unidadeFilter (js "all")
                     || match row_unidade_id c with
                        | Value u => strictEq u unidadeFilter
                        | Null | Undefined => false
                        end) checklists /\
  (forall c, In c (filteredChecklists checklists searchTerm unidadeFilter) ->
             In c checklists /\
             (unidadeFilter = js "all" \/
              row_unidade_id c = Value unidadeFilter)).
Proof.
  unfold Part000.filteredChecklists.
  assert (Hm : forall uf c,
             matches unicodeLower [] uf c =
             strictEq uf (js "all")
             || match row_unidade_id c with
                | Value u => strictEq u uf
                | Null | Undefined => false
                end).
  { intros uf c. unfold matches.
    change (toLowerCase unicodeLower []) with (@nil code_unit).
    now rewrite String_includes_empty. }
  split; [|split].
  - induction checklists as [|c l IH]; [reflexivity|].
    cbn [filter]. rewrite Hm.
    change (strictEq (js "all") (js "all")) with true.
    cbn [orb]. now rewrite IH.
  - apply filter_ext. intros c. apply Hm.
  - intros c Hc. apply filter_In in Hc as (Hin & Hc).
    split; [exact Hin|]. unfold matches in Hc.
    apply andb_true_iff in Hc as (_ & Hc).
    apply orb_true_iff in Hc as [Hc|Hc].
    + left. now apply strictEq_true_iff in Hc.
    + right. destruct (row_unidade_id c) as [| |u]; try discriminate Hc.
      apply strictEq_true_iff in Hc. now subst.
Qed.

End Part000FilterProperties.

(** ** The executions page of the second unnamed source file *)

Section Part001Properties.

Import Part001.

Variable inherited : jsstring -> bool.

Local Abbreviation record := (record inherited).
Local Abbreviation execucaoConclusoes := (execucaoConclusoes inherited).

Variable k : jsstring.
Hypothesis k_not_empty : k <> [].
Hypothesis k_not_inherited : inherited k = false.

Lemma Map_get_set {V : Type} (m : list (jsstring * V)) (k' : jsstring)
    (v : V) :
  Map_get (Map_set m k' v) k =
  if strictEq k' k then Some v else Map_get m k.
Proof.
  unfold Map_get, Map_set. cbn [find fst snd].
  now destruct (strictEq k' k).
Qed.

Lemma record_other (m : list (jsstring * jsstring)) (r : Resposta) :
  execucao_id r <> Value k -> Map_get (record m r) k = Map_get m k.
Proof.
  intros Hr. unfold Part001.record.
  destruct (execucao_id r) as [| |k']; try reflexivity.
  destruct (nonEmpty k' && falsyAt inherited m k'); [|reflexivity].
  rewrite Map_get_set.
  destruct (strictEq k' k) eqn:E; [|reflexivity].
  apply strictEq_true_iff in E. subst k'. now elim Hr.
Qed.

Lemma record_same (m : list (jsstring * jsstring)) (r : Resposta) :
  execucao_id r = Value k ->
  Map_get (record m r) k =
  match Map_get m k with
  | Some v => if nonEmpty v then Some v else Some (coalesce (created_at r) [])
  | None => Some (coalesce (created_at r) [])
  end.
Proof.
  intros Hr. unfold Part001.record, falsyAt. rewrite Hr.
  assert (Hne : nonEmpty k = true)
    by (destruct k; [now elim k_not_empty|reflexivity]).
  assert (Hk : strictEq k k = true) by now apply strictEq_true_iff.
  rewrite Hne. cbn [andb].
  destruct (Map_get m k) as [v|] eqn:E.
  - destruct (nonEmpty v); cbn [negb]; [exact E|].
    now rewrite Map_get_set, Hk.
  - rewrite k_not_inherited. cbn [negb]. now rewrite Map_get_set, Hk.
Qed.

Lemma conclusoes_kept (l : list Resposta) :
  forall (m : list (jsstring * jsstring)) (v : jsstring),
    Map_get m k = Some v -> v <> [] ->
    Map_get (fold_left record l m) k = Some v.
Proof.
  induction l as [|r l IH]; intros m v Hm Hv; [exact Hm|].
  cbn [fold_left]. apply IH; [|exact Hv].
  destruct (nullable_jsstring_eq_dec (execucao_id r) (Value k)) as [E|E].
  - rewrite (record_same m r E), Hm. destruct v; [contradiction|reflexivity].
  - now rewrite record_other.
Qed.

Local Abbreviation blank r :=
  (execucao_id r = Value k -> coalesce (created_at r) [] = []).

Lemma conclusoes_blank (l : list Resposta) :
  forall m : list (jsstring * jsstring),
    (Map_get m k = None \/ Map_get m k = Some []) ->
    (forall r, In r l -> blank r) ->
    (Map_get (fold_left record l m) k = Map_get m k /\
     forall r, In r l -> execucao_id r <> Value k) \/
    (Map_get (fold_left record l m) k = Some [] /\
     ((exists r, In r l /\ execucao_id r = Value k) \/
      Map_get m k = Some [])).
Proof.
  induction l as [|r l IH]; intros m Hm Hl.
  - left. split; [reflexivity|]. intros r [].
  - cbn [fold_left].
    destruct (nullable_jsstring_eq_dec (execucao_id r) (Value k)) as [E|E].
    + right.
      assert (Hrec : Map_get (record m r) k = Some []).
      { rewrite (record_same m r E).
        rewrite (Hl r (or_introl eq_refl) E).
        destruct Hm as [->| ->]; reflexivity. }
      destruct (IH (record m r)) as [(H1 & _)|(H1 & _)].
      * now right.
      * intros r' Hr'. apply Hl. now right.
      * split; [now rewrite H1|]. left. exists r. split; [now left|exact E].
      * split; [exact H1|]. left. exists r. split; [now left|exact E].
    + assert (Hrec : Map_get (record m r) k = Map_get m k)
        by now apply record_other.
      destruct (IH (record m r)) as [(H1 & H2)|(H1 & H2)].
      * now rewrite Hrec.
      * intros r' Hr'. apply Hl. now right.
      * left. split; [now rewrite H1|].
        intros r' [<-|Hr']; [exact E|now apply H2].
      * right. split; [exact H1|].
        destruct H2 as [(r' & Hr' & E')|H2].
        -- left. exists r'. split; [now right|exact E'].
        -- right. now rewrite <- Hrec.
Qed.

(** X18. The object that [fetchExecucaoConclusoes] builds holds, for an
    execution, the time of the first of its answers that has one, the
    answers being taken in the order of the query: an answer without time
    leaves an empty text that a later answer replaces, and a time once
    recorded is never replaced.  An execution without answer has no entry,
    and one whose answers all lack a time has the empty text.  This is for
    an identifier that is not empty and is not the name of a property that
    objects inherit. *)
Theorem part001_conclusao_is_first_timestamp (respostas : list Resposta) :
  (forall before r after c,
      respostas = before ++ r :: after ->
      execucao_id r = Value k -> created_at r = Value c -> c <> [] ->
      (forall r', In r' before -> blank r') ->
      Map_get (execucaoConclusoes (Value respostas)) k = Some c) /\
  ((forall r, In r respostas -> execucao_id r <> Value k) ->
   Map_get (execucaoConclusoes (Value respostas)) k = None) /\
  ((exists r, In r respostas /\ execucao_id r = Value k) ->
   (forall r, In r respostas -> blank r) ->
   Map_get (execucaoConclusoes (Value respostas)) k = Some []).
Proof.
  unfold Part001.execucaoConclusoes.
  assert (Hnil : Map_get (@nil (jsstring * jsstring)) k = None)
    by reflexivity.
  split; [|split].
  - intros before r after c -> Hr Hc Hne Hbefore.
    rewrite fold_left_app. cbn [fold_left].
    apply conclusoes_kept; [|exact Hne].
    rewrite (record_same _ r Hr), Hc. cbn [coalesce].
    destruct (conclusoes_blank before [] (or_introl Hnil) Hbefore)
      as [(H & _)|(H & _)]; rewrite H; [now rewrite Hnil|reflexivity].
  - intros Hnone.
    destruct (conclusoes_blank respostas [] (or_introl Hnil))
      as [(H & _)|(_ & [(r & Hin & Hr)|H])].
    + intros r Hin Hr. now elim (Hnone r Hin).
    + now rewrite H.
    + now elim (Hnone r Hin).
    + rewrite Hnil in H. discriminate H.
  - intros (r & Hin & Hr) Hblank.
    destruct (conclusoes_blank respostas [] (or_introl Hnil) Hblank)
      as [(_ & H)|(H & _)]; [now elim (H r Hin)|exact H].
Qed.

End Part001Properties.

(** * The properties of the pages at concrete data *)



Lemma checklist_submit_final_state_witness :
  ChecklistPage.saving
    (ChecklistPage.run Sample.checklistState
       (ChecklistPage.handleSubmit Sample.checklistForm (Value 7) true))
  = false.
Proof.
  apply (checklist_submit_final_state Sample.checklistForm (Value 7) true
           Sample.checklistState).
  reflexivity.
Defined.



Lemma checklist_unidade_cell_witness :
  ChecklistPage.unidadeCell Sample.unidades Sample.checklistRow
  = js "Filial Sul".
Proof.
  apply (proj1 (checklist_unidade_cell Sample.unidades Sample.checklistRow)
           (js "u2") (firstn 2 Sample.unidades)
           {| ChecklistPage.unidade_row_id := js "u2";
              ChecklistPage.unidade_row_nome := js "Filial Sul" |} []).
  - reflexivity.
  - discriminate.
  - reflexivity.
  - reflexivity.
  - intros y [].
Defined.

Lemma respostas_edit_then_submit_keeps_conforme_witness :
  exists p,
    RespostasPage.payload Sample.toISOString Sample.respostaEdited = Some p /\
    RespostasPage.ins_conforme p = Value false.
Proof.
  eexists. split; [reflexivity|].
  apply (respostas_edit_then_submit_keeps_conforme Sample.toISOString
           Sample.respostaRow Sample.respostaEdited).
  - simpl. right. left. reflexivity.
  - reflexivity.
  - discriminate.
Defined.

Lemma respostas_submit_refuses_concluded_witness :
  RespostasPage.requests
    (RespostasPage.handleSubmit Sample.toISOString Sample.respostaForm
       Sample.execucoes Null false) = [].
Proof.
  apply (proj1 (respostas_submit_refuses_concluded Sample.toISOString
                  Sample.respostaForm Sample.execucoes Null false
                  Sample.respostaState)
           {| RespostasPage.execucao_row_id := js "e1";
              RespostasPage.execucao_row_status := Value (js "concluido") |}).
  - reflexivity.
  - reflexivity.
Defined.


Lemma itens_gerarOrdemUnica_ends_witness :
  exists r,
    ItensPage.gerarOrdemUnica Sample.randomFloor Sample.takenBelow40 60
    = Some r /\
    ItensPage.gerarOrdemUnica Sample.randomFloor Sample.takenBelow40 51
    = Some r.
Proof.
  destruct (itens_gerarOrdemUnica_ends Sample.randomFloor
              Sample.takenBelow40 60) as (r & H60 & H51 & _).
  - repeat constructor.
  - exists r. split; [exact H60|exact H51].
Defined.


Lemma itens_gerarOrdemUnica_throws_witness :
  (exists k : Z,
      1 <= k <= 50 /\
      ItensPage.error
        (Sample.failsAtSecond k
           (ItensPage.ordemDaTentativa Sample.randomFloor k))
      = Some "timeout"%string /\
      (forall j, 1 <= j < k ->
                 ItensPage.answeredTaken Sample.randomFloor
                   Sample.failsAtSecond j = true) /\
      Z.of_nat (List.length [20; 10]) = k) \/
  ("timeout"%string = ItensPage.noUniqueOrder /\
   (forall j, 1 <= j <= 50 ->
              ItensPage.answeredTaken Sample.randomFloor
                Sample.failsAtSecond j = true) /\
   List.length [20; 10] = 50%nat).
Proof.
  apply (itens_gerarOrdemUnica_throws Sample.randomFloor
           Sample.failsAtSecond 51 "timeout" [20; 10]).
  reflexivity.
Defined.



Lemma part000_edit_then_submit_keeps_row_witness :
  Part000.requests
    (Part000.handleSubmit
       (Part000.formData
          (Part000.run Sample.part000State
             (Part000.handleEdit (Sample.part000Row "Limpeza" "u1"))))
       (Part000.editingId
          (Part000.run Sample.part000State
             (Part000.handleEdit (Sample.part000Row "Limpeza" "u1"))))
       false false)
  = [Part000.Update
       {| Part000.ins_nome := js "Limpeza";
          Part000.ins_periodicidade := js "mensal";
          Part000.ins_contrato_id := Null;
          Part000.ins_unidade_id := Value (js "u1") |}
       (js "Limpeza")].
Proof.
  apply (part000_edit_then_submit_keeps_row
           (Sample.part000Row "Limpeza" "u1") Sample.part000State
           false false).
  - discriminate.
  - discriminate.
  - now left.
  - right. exists (js "u1"). split; [reflexivity|discriminate].
Defined.

Lemma part000_filter_by_unit_witness :
  Part000.row_unidade_id (Sample.part000Row "Limpeza" "u1")
  = Value (js "u1").
Proof.
  destruct (proj2 (proj2 (part000_filter_by_unit noUnicodeLower
                            [Sample.part000Row "Ronda" "u2";
                             Sample.part000Row "Limpeza" "u1"]
                            (js "LIMP") (js "u1")))
              (Sample.part000Row "Limpeza" "u1"))
    as (_ & [H|H]).
  - simpl. left. reflexivity.
  - discriminate H.
  - exact H.
Defined.

Lemma part001_conclusao_is_first_timestamp_witness :
  Map_get
    (Part001.execucaoConclusoes Sample.inherited
       (Value [Sample.resposta "e1" Null;
               Sample.resposta "e2" (Value (js "09:00"));
               Sample.resposta "e1" (Value (js "10:30"));
               Sample.resposta "e1" (Value (js "11:45"))]))
    (js "e1")
  = Some (js "10:30").
Proof.
  apply (proj1 (part001_conclusao_is_first_timestamp Sample.inherited
                  (js "e1") ltac:(discriminate) eq_refl _)
           [Sample.resposta "e1" Null;
            Sample.resposta "e2" (Value (js "09:00"))]
           (Sample.resposta "e1" (Value (js "10:30")))
           [Sample.resposta "e1" (Value (js "11:45"))] (js "10:30")).
  - reflexivity.
  - reflexivity.
  - reflexivity.
  - discriminate.
  - intros r' [<-|[<-|[]]] Hk; [reflexivity|discriminate Hk].
Defined.
